(** * seller-apis: stock and price synchronisation to two marketplaces

    A shallow embedding of [seller.py] (the Ozon adapter and the shared
    helpers [price_conversion] and [divide]) and of [market.py] (the
    Yandex Market adapter), with the properties of the record builders,
    the batcher, the price normaliser and the offer-id fetchers.

    Conventions of the model.
    - A Python [str] is a [string]: the sequence of its bytes in UTF-8.
      Every character the code inspects (digits, ".", ">", sign, blanks)
      is ASCII, and a byte below 128 never occurs inside the encoding of a
      non-ASCII character, so splitting on "." and deleting non-digits
      commute with the encoding.
    - A cell of the decoded spreadsheet is a [pyval]: a string, an
      integer, or [None] (what [dict.get] gives for an absent key).
      Floating point cells are outside the model.
    - Python integers are unbounded: [Z].  The interpreter's optional cap
      on the number of digits [int] accepts is outside the model.
    - An exception is a value of [exn]; a computation that may raise
      returns a [res].
    - The list of offer ids is one mutable object shared by its users: the
      builders are state transformers over its contents. *)

From Stdlib Require Import ZArith Lia Bool List String Ascii.
From Stdlib Require Import DecimalString DecimalZ Permutation.
Import ListNotations.

Open Scope string_scope.
Open Scope list_scope.
Open Scope Z_scope.

(** ** Python values, exceptions, results *)

Inductive pyval : Type :=
| PyStr (s : string)
| PyInt (z : Z)
| PyNone.

Inductive exn : Type :=
| ValueError
| TypeError
| AttributeError
| HTTPError (status : Z)
| ConnectionError.

Inductive res (A : Type) : Type :=
| OK (a : A)
| Raise (e : exn).

Arguments OK {A} a.
Arguments Raise {A} e.

Definition res_map {A B : Type} (f : A -> B) (r : res A) : res B :=
  match r with
  | OK a => OK (f a)
  | Raise e => Raise e
  end.

(** ** Characters *)

Definition is_digit (c : ascii) : bool :=
  let n := nat_of_ascii c in (48 <=? n)%nat && (n <=? 57)%nat.

Definition digit_val (c : ascii) : Z :=
  Z.of_nat (nat_of_ascii c) - 48.

(** The blanks [int] skips around a literal: tab, line feed, vertical
    tab, form feed, carriage return, the four separators 28..31, space. *)
Definition is_space (c : ascii) : bool :=
  let n := nat_of_ascii c in
  ((9 <=? n)%nat && (n <=? 13)%nat) || ((28 <=? n)%nat && (n <=? 32)%nat).

Fixpoint all_digits (s : string) : bool :=
  match s with
  | EmptyString => true
  | String c s' => is_digit c && all_digits s'
  end.

Fixpoint all_space (s : string) : bool :=
  match s with
  | EmptyString => true
  | String c s' => is_space c && all_space s'
  end.

(** ** The builtins [str] and [int] *)

(** [str(v)]. *)
Definition py_str (v : pyval) : string :=
  match v with
  | PyStr s => s
  | PyInt z => NilZero.string_of_int (Z.to_int z)
  | PyNone => "None"
  end.

(** The digits of a literal after a first digit has been read, with [acc]
    the value so far: more digits, single underscores each followed by a
    digit, then blanks only. *)
Fixpoint int_digits (acc : Z) (s : string) : option Z :=
  match s with
  | EmptyString => Some acc
  | String c s' =>
      if is_digit c then int_digits (10 * acc + digit_val c) s'
      else if Ascii.eqb c "_" then
        match s' with
        | String d s'' =>
            if is_digit d then int_digits (10 * acc + digit_val d) s''
            else None
        | EmptyString => None
        end
      else if is_space c then
        if all_space s' then Some acc else None
      else None
  end.

Definition int_unsigned (s : string) : option Z :=
  match s with
  | String c s' => if is_digit c then int_digits (digit_val c) s' else None
  | EmptyString => None
  end.

Fixpoint lstrip (s : string) : string :=
  match s with
  | String c s' => if is_space c then lstrip s' else s
  | EmptyString => EmptyString
  end.

(** [int(s)] for a string [s] in base ten; [None] is the [ValueError]. *)
Definition int_of_str (s : string) : option Z :=
  match lstrip s with
  | String "+" r => int_unsigned r
  | String "-" r => option_map Z.opp (int_unsigned r)
  | r => int_unsigned r
  end.

(** [int(v)]. *)
Definition py_int (v : pyval) : res Z :=
  match v with
  | PyInt z => OK z
  | PyStr s =>
      match int_of_str s with
      | Some z => OK z
      | None => Raise ValueError
      end
  | PyNone => Raise TypeError
  end.

(** The value of a string of decimal digits, most significant first. *)
Fixpoint decimal_value (acc : Z) (s : string) : Z :=
  match s with
  | EmptyString => acc
  | String c s' => decimal_value (10 * acc + digit_val c) s'
  end.

(** ** Price normalisation: [price_conversion] *)

(** [s.split(sep)] for a one-character separator. *)
Fixpoint py_split (sep : ascii) (s : string) : list string :=
  match s with
  | EmptyString => [EmptyString]
  | String c s' =>
      if Ascii.eqb c sep then EmptyString :: py_split sep s'
      else
        match py_split sep s' with
        | seg :: segs => String c seg :: segs
        | [] => [String c EmptyString]
        end
  end.

(** [re.sub("[^0-9]", "", s)]: every character outside 0-9 is deleted. *)
Fixpoint re_sub_non_digits (s : string) : string :=
  match s with
  | EmptyString => EmptyString
  | String c s' =>
      if negb (is_digit c) then re_sub_non_digits s'
      else String c (re_sub_non_digits s')
  end.

(** [price_conversion] on a string. *)
Definition price_conversion_str (price : string) : string :=
  re_sub_non_digits (nth 0 (py_split "." price) EmptyString).

(** [price_conversion(price)]: a value that is not a string has no
    [split] method. *)
Definition price_conversion (price : pyval) : res string :=
  match price with
  | PyStr s => OK (price_conversion_str s)
  | _ => Raise AttributeError
  end.

(** The normaliser in the words of the specification: the text before the
    first "." is kept, and of it the digits only. *)
Fixpoint before_first_dot (s : string) : string :=
  match s with
  | EmptyString => EmptyString
  | String c s' =>
      if Ascii.eqb c "." then EmptyString else String c (before_first_dot s')
  end.

Fixpoint digits_only (s : string) : string :=
  match s with
  | EmptyString => EmptyString
  | String c s' =>
      if is_digit c then String c (digits_only s') else digits_only s'
  end.

Definition spec_price_normalize (s : string) : string :=
  digits_only (before_first_dot s).

(** ** The batcher: [divide] *)

(** [range(i, stop, step)] for a positive step; [fuel] bounds the number
    of elements. *)
Fixpoint range_from (fuel : nat) (i stop step : Z) : list Z :=
  match fuel with
  | O => []
  | S fuel' =>
      if i <? stop then i :: range_from fuel' (i + step) stop step else []
  end.

(** [range(start, stop, step)]: a zero step is a [ValueError]; with a
    negative step and [start <= stop] the range is empty (the only case
    [divide] reaches, where [start] is 0 and [stop] a length). *)
Definition py_range (start stop step : Z) : res (list Z) :=
  if step =? 0 then Raise ValueError
  else if step <? 0 then
    OK (if stop <? start
        then map (fun k => start + Z.of_nat k * step)
                 (seq 0 (Z.to_nat ((start - stop - 1) / (- step) + 1)))
        else [])
  else OK (range_from (Z.to_nat (stop - start)) start stop step).

(** [lst[i:j]] with Python's treatment of indices: a negative index
    counts from the end, and both are clamped to the list. *)
Definition slice_index {A : Type} (lst : list A) (i : Z) : nat :=
  let len := Z.of_nat (List.length lst) in
  Z.to_nat (Z.min len (Z.max 0 (if i <? 0 then i + len else i))).

Definition py_slice {A : Type} (lst : list A) (i j : Z) : list A :=
  let a := slice_index lst i in
  let b := slice_index lst j in
  firstn (b - a) (skipn a lst).

(** [list(divide(lst, n))]: the parts the generator yields, in order. *)
Definition divide {A : Type} (lst : list A) (n : Z) : res (list (list A)) :=
  res_map (map (fun i => py_slice lst i (i + n)))
          (py_range 0 (Z.of_nat (List.length lst)) n).

(** ** The supplier's inventory rows *)

(** One row of the decoded spreadsheet, a dictionary read only through
    [watch.get(key)]: each field is the value under its key, [PyNone]
    when the key is absent.  [Kod] is the product code, [Naimenovanie]
    the display name, [Tsena] the raw price, [Kolichestvo] the raw
    quantity. *)
Record watch : Type := mkWatch {
  Kod : pyval;
  Naimenovanie : pyval;
  Tsena : pyval;
  Kolichestvo : pyval
}.

(** ** The list of offer ids as a shared mutable object *)

(** A computation over the list object [offer_ids]: it receives the
    current contents and leaves new contents, also when it raises. *)
Definition M (A : Type) : Type := list string -> res A * list string.

Definition ret {A : Type} (a : A) : M A := fun ids => (OK a, ids).

Definition bind {A B : Type} (m : M A) (k : A -> M B) : M B :=
  fun ids =>
    match m ids with
    | (OK a, ids') => k a ids'
    | (Raise e, ids') => (Raise e, ids')
    end.

Definition lift {A : Type} (r : res A) : M A := fun ids => (r, ids).

Notation "x <- m ;; k" := (bind m (fun x => k))
  (at level 61, m at next level, right associativity).

Definition mem (x : string) (l : list string) : bool :=
  existsb (String.eqb x) l.

(** The list without the first element equal to [x]. *)
Fixpoint remove_first (x : string) (l : list string) : list string :=
  match l with
  | [] => []
  | y :: l' => if String.eqb x y then l' else y :: remove_first x l'
  end.

(** [x in offer_ids]. *)
Definition contains (x : string) : M bool := fun ids => (OK (mem x ids), ids).

(** [offer_ids.remove(x)]: the first occurrence goes; a [ValueError]
    when there is none. *)
Definition list_remove (x : string) : M unit :=
  fun ids =>
    if mem x ids then (OK tt, remove_first x ids) else (Raise ValueError, ids).

(** The contents, as [for offer_id in offer_ids] reads them. *)
Definition contents : M (list string) := fun ids => (OK ids, ids).

(** The count of a matched row, the conditional both stock builders
    carry: [">10"] is 100, ["1"] is 0, anything else goes through [int]
    (of the raw value, not of its string form). *)
Definition stock_count (Kolichestvo : pyval) : res Z :=
  let count := py_str Kolichestvo in
  if String.eqb count ">10" then OK 100
  else if String.eqb count "1" then OK 0
  else py_int Kolichestvo.

(** ** [seller.py]: the Ozon adapter *)

Module Seller.

Record stock_record : Type := mkStock {
  offer_id : string;
  stock : Z
}.

Record price_record : Type := mkPrice {
  auto_action_enabled : string;
  currency_code : string;
  p_offer_id : string;
  old_price : string;
  price : string
}.

(** The first loop of [create_stocks], with [stocks] the records
    appended so far. *)
Fixpoint stocks_loop (watch_remnants : list watch)
    (stocks : list stock_record) : M (list stock_record) :=
  match watch_remnants with
  | [] => ret stocks
  | watch :: rest =>
      found <- contains (py_str (Kod watch)) ;;
      if found : bool then
        stock <- lift (stock_count (Kolichestvo watch)) ;;
        let stocks := stocks ++ [mkStock (py_str (Kod watch)) stock] in
        _ <- list_remove (py_str (Kod watch)) ;;
        stocks_loop rest stocks
      else stocks_loop rest stocks
  end.

Definition create_stocks (watch_remnants : list watch)
  : M (list stock_record) :=
  stocks <- stocks_loop watch_remnants [] ;;
  offer_ids <- contents ;;
  ret (stocks ++ map (fun offer_id => mkStock offer_id 0) offer_ids).

Fixpoint prices_loop (watch_remnants : list watch)
    (prices : list price_record) : M (list price_record) :=
  match watch_remnants with
  | [] => ret prices
  | watch :: rest =>
      found <- contains (py_str (Kod watch)) ;;
      if found : bool then
        p <- lift (price_conversion (Tsena watch)) ;;
        let price :=
          mkPrice "UNKNOWN" "RUB" (py_str (Kod watch)) "0" p in
        prices_loop rest (prices ++ [price])
      else prices_loop rest prices
  end.

Definition create_prices (watch_remnants : list watch)
  : M (list price_record) :=
  prices_loop watch_remnants [].

(** *** The listing endpoint and [get_offer_ids] *)

Record product : Type := mkProduct {
  product_offer_id : string
}.

(** The ["result"] object of one answer of the listing endpoint. *)
Record product_page : Type := mkPage {
  page_items : list product;
  page_total : Z;
  page_last_id : string
}.

(** [for batch in batches: update(batch)]: one call per batch, in
    order, stopping at the first call that raises. *)
Fixpoint for_each {R : Type} (update : list R -> res unit)
    (batches : list (list R)) : res unit :=
  match batches with
  | [] => OK tt
  | batch :: rest =>
      match update batch with
      | OK _ => for_each update rest
      | Raise e => Raise e
      end
  end.

Section Remote.

(** The remote side: the answer to the request number [calls] of the
    listing endpoint (an error when the transport fails), the
    supplier feed, and the outcome of each write call. *)
Variable responses : nat -> res product_page.
Variable download_stock : res (list watch).
Variable update_stocks : list stock_record -> res unit.
Variable update_price : list price_record -> res unit.

(** [get_product_list(last_id, ...)]: the cursor travels to the remote
    side; the state is the number of requests made so far. *)
Definition get_product_list (last_id : string) (calls : nat)
  : res product_page * nat :=
  (responses calls, S calls).

(** The [while True] loop of [get_offer_ids]; [None] when [fuel]
    iterations did not reach the [break]. *)
Fixpoint offer_ids_loop (fuel : nat) (last_id : string)
    (product_list : list product) (calls : nat)
  : option (res (list product) * nat) :=
  match fuel with
  | O => None
  | S fuel' =>
      match get_product_list last_id calls with
      | (Raise e, calls') => Some (Raise e, calls')
      | (OK some_prod, calls') =>
          let product_list := product_list ++ page_items some_prod in
          let total := page_total some_prod in
          let last_id := page_last_id some_prod in
          if total =? Z.of_nat (List.length product_list)
          then Some (OK product_list, calls')
          else offer_ids_loop fuel' last_id product_list calls'
      end
  end.

(** [get_offer_ids]: the offer ids and the number of requests made. *)
Definition get_offer_ids (fuel : nat) : option (res (list string) * nat) :=
  match offer_ids_loop fuel "" [] 0%nat with
  | None => None
  | Some (r, calls) => Some (res_map (map product_offer_id) r, calls)
  end.

(** The body of the [try] of [main] from [create_stocks] on, over the
    list object [offer_ids]; the value is that of the locals [stocks]
    and [prices] when the body completes. *)
Definition main_body (watch_remnants : list watch)
  : M (list stock_record * list price_record) :=
  stocks <- create_stocks watch_remnants ;;
  stock_batches <- lift (divide stocks 100) ;;
  _ <- lift (for_each update_stocks stock_batches) ;;
  prices <- create_prices watch_remnants ;;
  price_batches <- lift (divide prices 900) ;;
  _ <- lift (for_each update_price price_batches) ;;
  ret (stocks, prices).

(** [main]: the exception the [except] clauses catch and print, or
    the locals [stocks] and [prices] at the end of the [try]. *)
Definition main (fuel : nat)
  : option (res (list stock_record * list price_record)) :=
  match get_offer_ids fuel with
  | None => None
  | Some (Raise e, _) => Some (Raise e)
  | Some (OK offer_ids, _) =>
      match download_stock with
      | Raise e => Some (Raise e)
      | OK watch_remnants => Some (fst (main_body watch_remnants offer_ids))
      end
  end.

(** [upload_prices]: the offer ids are fetched anew, into a list
    object of its own. *)
Definition upload_prices (fuel : nat) (watch_remnants : list watch)
  : option (res (list price_record)) :=
  match get_offer_ids fuel with
  | None => None
  | Some (Raise e, _) => Some (Raise e)
  | Some (OK offer_ids, _) =>
      Some (fst ((prices <- create_prices watch_remnants ;;
                  price_batches <- lift (divide prices 1000) ;;
                  _ <- lift (for_each update_price price_batches) ;;
                  ret prices) offer_ids))
  end.

(** [upload_stocks]: the offer ids are fetched, the stock batch built
    and written in parts of 100; the value is the records with a count
    other than zero, and all the records. *)
Definition upload_stocks (fuel : nat) (watch_remnants : list watch)
  : option (res (list stock_record * list stock_record)) :=
  match get_offer_ids fuel with
  | None => None
  | Some (Raise e, _) => Some (Raise e)
  | Some (OK offer_ids, _) =>
      Some (fst ((stocks <- create_stocks watch_remnants ;;
                  stock_batches <- lift (divide stocks 100) ;;
                  _ <- lift (for_each update_stocks stock_batches) ;;
                  let not_empty :=
                    filter (fun s => negb (stock s =? 0)) stocks in
                  ret (not_empty, stocks)) offer_ids))
  end.

End Remote.

End Seller.

(** ** [market.py]: the Yandex Market adapter *)

Module Market.

Record item : Type := mkItem {
  count : Z;
  type : string;
  updatedAt : string
}.

Record stock_record : Type := mkStock {
  sku : string;
  warehouseId : string;
  items : list item
}.

Record price_value : Type := mkValue {
  value : Z;
  currencyId : string
}.

Record price_record : Type := mkPrice {
  id : string;
  price : price_value
}.

(** The first loop of [create_stocks]; [date] is the clock reading
    taken once before the loop. *)
Fixpoint stocks_loop (warehouse_id date : string)
    (watch_remnants : list watch) (stocks : list stock_record)
  : M (list stock_record) :=
  match watch_remnants with
  | [] => ret stocks
  | watch :: rest =>
      found <- contains (py_str (Kod watch)) ;;
      if found : bool then
        stock <- lift (stock_count (Kolichestvo watch)) ;;
        let stocks :=
          stocks ++ [mkStock (py_str (Kod watch)) warehouse_id
                             [mkItem stock "FIT" date]] in
        _ <- list_remove (py_str (Kod watch)) ;;
        stocks_loop warehouse_id date rest stocks
      else stocks_loop warehouse_id date rest stocks
  end.

Definition create_stocks (date : string) (watch_remnants : list watch)
    (warehouse_id : string) : M (list stock_record) :=
  stocks <- stocks_loop warehouse_id date watch_remnants [] ;;
  offer_ids <- contents ;;
  ret (stocks ++
       map (fun offer_id =>
              mkStock offer_id warehouse_id [mkItem 0 "FIT" date])
           offer_ids).

Fixpoint prices_loop (watch_remnants : list watch)
    (prices : list price_record) : M (list price_record) :=
  match watch_remnants with
  | [] => ret prices
  | watch :: rest =>
      found <- contains (py_str (Kod watch)) ;;
      if found : bool then
        p <- lift (price_conversion (Tsena watch)) ;;
        v <- lift (py_int (PyStr p)) ;;
        let price := mkPrice (py_str (Kod watch)) (mkValue v "RUR") in
        prices_loop rest (prices ++ [price])
      else prices_loop rest prices
  end.

Definition create_prices (watch_remnants : list watch)
  : M (list price_record) :=
  prices_loop watch_remnants [].

(** *** The listing endpoint and [get_offer_ids] *)

Record offer : Type := mkOffer {
  shopSku : string
}.

Record offer_mapping_entry : Type := mkEntry {
  entry_offer : offer
}.

(** The ["result"] object of one answer of the listing endpoint;
    [nextPageToken] is [None] when the key is absent. *)
Record mapping_page : Type := mkPage {
  offerMappingEntries : list offer_mapping_entry;
  nextPageToken : option string
}.

(** The truth value of [page]: [None] and the empty string are false. *)
Definition truthy (page : option string) : bool :=
  match page with
  | None => false
  | Some EmptyString => false
  | Some _ => true
  end.

Section Remote.

Variable responses : nat -> res mapping_page.

(** [get_product_list(page, ...)]: the page token travels to the
    remote side; the state is the number of requests made so far. *)
Definition get_product_list (page : option string) (calls : nat)
  : res mapping_page * nat :=
  (responses calls, S calls).

(** The [while True] loop of [get_offer_ids]; [None] when [fuel]
    iterations did not reach the [break]. *)
Fixpoint offer_ids_loop (fuel : nat) (page : option string)
    (product_list : list offer_mapping_entry) (calls : nat)
  : option (res (list offer_mapping_entry) * nat) :=
  match fuel with
  | O => None
  | S fuel' =>
      match get_product_list page calls with
      | (Raise e, calls') => Some (Raise e, calls')
      | (OK some_prod, calls') =>
          let product_list :=
            product_list ++ offerMappingEntries some_prod in
          let page := nextPageToken some_prod in
          if negb (truthy page)
          then Some (OK product_list, calls')
          else offer_ids_loop fuel' page product_list calls'
      end
  end.

Definition get_offer_ids (fuel : nat) : option (res (list string) * nat) :=
  match offer_ids_loop fuel (Some EmptyString) [] 0%nat with
  | None => None
  | Some (r, calls) =>
      Some (res_map (map (fun product => shopSku (entry_offer product))) r,
            calls)
  end.

End Remote.

(** *** [upload_prices] and [upload_stocks] *)

(** What [upload_stocks] can raise: an exception of the steps before the
    filter, or the [IndexError] of [items[0]] on a record without
    items. *)
Inductive upload_exn : Type :=
| Earlier (e : exn)
| IndexError.

Inductive upload_outcome : Type :=
| Returned (not_empty stocks : list stock_record)
| Raised (e : upload_exn).

(** [list(filter(lambda stock: stock.get("items")[0].get("count") != 0,
    stocks))]; [None] is the [IndexError] of the first record without
    items. *)
Fixpoint not_empty_of (stocks : list stock_record)
  : option (list stock_record) :=
  match stocks with
  | [] => Some []
  | stock :: rest =>
      match items stock with
      | [] => None
      | first :: _ =>
          match not_empty_of rest with
          | Some kept =>
              Some (if negb (count first =? 0) then stock :: kept else kept)
          | None => None
          end
      end
  end.

Section Uploads.

Variable responses : nat -> res mapping_page.
Variable update_stocks : list stock_record -> res unit.
Variable update_price : list price_record -> res unit.

(** [upload_prices]: parts of 500. *)
Definition upload_prices (fuel : nat) (watch_remnants : list watch)
  : option (res (list price_record)) :=
  match get_offer_ids responses fuel with
  | None => None
  | Some (Raise e, _) => Some (Raise e)
  | Some (OK offer_ids, _) =>
      Some (fst ((prices <- create_prices watch_remnants ;;
                  price_batches <- lift (divide prices 500) ;;
                  _ <- lift (Seller.for_each update_price price_batches) ;;
                  ret prices) offer_ids))
  end.

(** [upload_stocks]: parts of 2000; [date] is the clock reading of
    [create_stocks]. *)
Definition upload_stocks (date : string) (fuel : nat)
    (watch_remnants : list watch) (warehouse_id : string)
  : option upload_outcome :=
  match get_offer_ids responses fuel with
  | None => None
  | Some (Raise e, _) => Some (Raised (Earlier e))
  | Some (OK offer_ids, _) =>
      match (stocks <- create_stocks date watch_remnants warehouse_id ;;
             stock_batches <- lift (divide stocks 2000) ;;
             _ <- lift (Seller.for_each update_stocks stock_batches) ;;
             ret stocks) offer_ids with
      | (Raise e, _) => Some (Raised (Earlier e))
      | (OK stocks, _) =>
          match not_empty_of stocks with
          | Some not_empty => Some (Returned not_empty stocks)
          | None => Some (Raised IndexError)
          end
      end
  end.

End Uploads.

End Market.

(** ** Predicates used to state the properties *)

Fixpoint has_digit (s : string) : bool :=
  match s with
  | EmptyString => false
  | String c s' => is_digit c || has_digit s'
  end.

(** Every batch but the last holds exactly [n] elements. *)
Fixpoint full_but_last {A : Type} (n : nat) (batches : list (list A)) : Prop :=
  match batches with
  | [] => True
  | b :: rest =>
      match rest with
      | [] => True
      | _ :: _ => List.length b = n /\ full_but_last n rest
      end
  end.

(** The slices the loop of [divide] yields from index [i] on. *)
Definition slices {A : Type} (lst : list A) (n : Z) (fuel i : nat)
  : list (list A) :=
  map (fun j => py_slice lst j (j + n))
      (range_from fuel (Z.of_nat i) (Z.of_nat (List.length lst)) n).

(** The string form of a row's product code. *)
Definition code_of (w : watch) : string := py_str (Kod w).

(** The rows of the inventory that find their code in the working list
    when the stock loop reaches them. *)
Fixpoint matched_rows (rows : list watch) (ids : list string) : list watch :=
  match rows with
  | [] => []
  | w :: rest =>
      if mem (code_of w) ids
      then w :: matched_rows rest (remove_first (code_of w) ids)
      else matched_rows rest ids
  end.

(** The rows whose code is a known offer id, the first row only of each
    code, in inventory order; [seen] holds the codes of the rows before. *)
Fixpoint first_matching (seen : list string) (rows : list watch)
    (ids : list string) : list watch :=
  match rows with
  | [] => []
  | w :: rest =>
      if mem (code_of w) ids && negb (mem (code_of w) seen)
      then w :: first_matching (code_of w :: seen) rest ids
      else first_matching (code_of w :: seen) rest ids
  end.

(** The known offer ids that are the code of no inventory row. *)
Definition unmatched_ids (rows : list watch) (ids : list string) : list string :=
  filter (fun id => negb (mem id (map code_of rows))) ids.

(** The working list after every row, in turn, has deleted the first
    occurrence of its code (a row whose code is not there deletes
    nothing). *)
Definition remaining_ids (rows : list watch) (ids : list string) : list string :=
  fold_left (fun l w => remove_first (code_of w) l) rows ids.

(** The records of the two stock builders correspond field by field. *)
Definition to_market (warehouse_id date : string) (r : Seller.stock_record)
  : Market.stock_record :=
  Market.mkStock (Seller.offer_id r) warehouse_id
                 [Market.mkItem (Seller.stock r) "FIT" date].

(** A stock record built from a matched row. *)
Definition seller_stock_of (w : watch) (r : Seller.stock_record) : Prop :=
  Seller.offer_id r = code_of w
  /\ stock_count (Kolichestvo w) = OK (Seller.stock r).

Definition market_stock_of (warehouse_id date : string) (w : watch)
    (r : Market.stock_record) : Prop :=
  exists c : Z,
    r = Market.mkStock (code_of w) warehouse_id [Market.mkItem c "FIT" date]
    /\ stock_count (Kolichestvo w) = OK c.

(** A price record built from a matched row. *)
Definition seller_price_of (w : watch) (r : Seller.price_record) : Prop :=
  exists p : string,
    price_conversion (Tsena w) = OK p
    /\ r = Seller.mkPrice "UNKNOWN" "RUB" (code_of w) "0" p.

Definition market_price_of (w : watch) (r : Market.price_record) : Prop :=
  exists (p : string) (v : Z),
    price_conversion (Tsena w) = OK p
    /\ int_of_str p = Some v
    /\ r = Market.mkPrice (code_of w) (Market.mkValue v "RUR").

(** An id that is the code of none of the rows already passed. *)
Definition unseen (seen : list string) (id : string) : bool :=
  negb (mem id seen).

(** The rows whose code is among the known offer ids. *)
Definition known_rows (rows : list watch) (ids : list string) : list watch :=
  filter (fun w => mem (code_of w) ids) rows.


(** The items of an answer of the Ozon listing endpoint, none for a
    failed request. *)
Definition seller_items (r : res Seller.product_page) : list Seller.product :=
  match r with
  | OK pg => Seller.page_items pg
  | Raise _ => []
  end.

(** The items accumulated over the first [k] answers. *)
Fixpoint seller_accumulated (responses : nat -> res Seller.product_page)
    (k : nat) : list Seller.product :=
  match k with
  | O => []
  | S k' => seller_accumulated responses k' ++ seller_items (responses k')
  end.

(** Answer [i] is a page whose reported total differs from the number of
    items accumulated with it: more pages follow. *)
Definition seller_more (responses : nat -> res Seller.product_page)
    (i : nat) : Prop :=
  exists pg : Seller.product_page,
    responses i = OK pg
    /\ Seller.page_total pg
       <> Z.of_nat (List.length (seller_accumulated responses (S i))).

(** Answer [k] is a page whose reported total is the number of items
    accumulated with it: the last page. *)
Definition seller_last (responses : nat -> res Seller.product_page)
    (k : nat) : Prop :=
  exists pg : Seller.product_page,
    responses k = OK pg
    /\ Seller.page_total pg
       = Z.of_nat (List.length (seller_accumulated responses (S k))).

Definition market_items (r : res Market.mapping_page)
  : list Market.offer_mapping_entry :=
  match r with
  | OK pg => Market.offerMappingEntries pg
  | Raise _ => []
  end.

Fixpoint market_accumulated (responses : nat -> res Market.mapping_page)
    (k : nat) : list Market.offer_mapping_entry :=
  match k with
  | O => []
  | S k' => market_accumulated responses k' ++ market_items (responses k')
  end.

(** Answer [i] is a page with a non-empty continuation token. *)
Definition market_more (responses : nat -> res Market.mapping_page)
    (i : nat) : Prop :=
  exists (pg : Market.mapping_page) (c : ascii) (token : string),
    responses i = OK pg /\ Market.nextPageToken pg = Some (String c token).

(** Answer [k] is a page whose continuation token is absent or empty. *)
Definition market_last (responses : nat -> res Market.mapping_page)
    (k : nat) : Prop :=
  exists pg : Market.mapping_page,
    responses k = OK pg
    /\ (Market.nextPageToken pg = None
        \/ Market.nextPageToken pg = Some EmptyString).

(** Two scripted remotes: an Ozon listing of three items in two pages,
    and a Yandex Market listing whose second request fails. *)
Definition seller_two_pages (n : nat) : res Seller.product_page :=
  match n with
  | O => OK (Seller.mkPage [Seller.mkProduct "101"] 3 "101")
  | _ => OK (Seller.mkPage [Seller.mkProduct "102"; Seller.mkProduct "103"]
                           3 "103")
  end.

Definition market_second_fails (n : nat) : res Market.mapping_page :=
  match n with
  | O => OK (Market.mkPage [Market.mkEntry (Market.mkOffer "101")]
                           (Some "next"))
  | _ => Raise ConnectionError
  end.

(** A run of the Ozon adapter: the account lists the one offer "101",
    the supplier feed has that watch, every write call succeeds. *)
Definition one_offer_listing (n : nat) : res Seller.product_page :=
  OK (Seller.mkPage [Seller.mkProduct "101"] 1 "101").

Definition one_watch_feed : list watch :=
  [mkWatch (PyStr "101") (PyStr "Casio") (PyStr "5'990.00") (PyStr "5")].

(** The quantity of a row resolves to a count. *)
Definition quantity_resolves (w : watch) : Prop :=
  exists c : Z, stock_count (Kolichestvo w) = OK c.

(** A Yandex Market stock record as [create_stocks] builds them: the
    given warehouse, and one item of type "FIT" with the given date. *)
Definition market_stock_shape (wh date : string) (r : Market.stock_record)
  : Prop :=
  Market.warehouseId r = wh
  /\ exists c : Z, Market.items r = [Market.mkItem c "FIT" date].

(** The count of the first item of a Yandex Market stock record, 0 for a
    record without items. *)
Definition first_count (r : Market.stock_record) : Z :=
  match Market.items r with
  | first :: _ => Market.count first
  | [] => 0
  end.

(** The raw price of a row is a string. *)
Definition price_is_string (w : watch) : Prop :=
  exists s : string, Tsena w = PyStr s.

(** The raw price of a row is a string with a digit before its first
    ".". *)
Definition price_has_digits (w : watch) : Prop :=
  exists s : string,
    Tsena w = PyStr s /\ has_digit (before_first_dot s) = true.

(** A price record of the Ozon adapter and one of the Yandex Market
    adapter that say the same: same offer, and the integer of the second
    is the value of the digit string of the first. *)
Definition same_price (s : Seller.price_record) (m : Market.price_record)
  : Prop :=
  Seller.p_offer_id s = Market.id m
  /\ all_digits (Seller.price s) = true
  /\ Seller.price s <> EmptyString
  /\ Market.value (Market.price m) = decimal_value 0 (Seller.price s)
  /\ 0 <= Market.value (Market.price m)
  /\ Market.currencyId (Market.price m) = "RUR".

(** * Properties *)


(** ** Properties of the price normaliser *)

Lemma split_head_before_dot (s : string) :
  nth 0 (py_split "." s) EmptyString = before_first_dot s.
Proof.
  induction s as [|c s IH]; simpl; [reflexivity|].
  destruct (Ascii.eqb c "."); [reflexivity|].
  destruct (py_split "." s) as [|seg segs]; simpl in *; now rewrite <- IH.
Qed.

Lemma re_sub_digits_only (s : string) : re_sub_non_digits s = digits_only s.
Proof.
  induction s as [|c s IH]; simpl; [reflexivity|].
  destruct (is_digit c); simpl; now rewrite IH.
Qed.

Lemma price_conversion_str_spec (s : string) :
  price_conversion_str s = spec_price_normalize s.
Proof.
  unfold price_conversion_str, spec_price_normalize.
  now rewrite split_head_before_dot, re_sub_digits_only.
Qed.

Lemma digits_only_all_digits (s : string) : all_digits (digits_only s) = true.
Proof.
  induction s as [|c s IH]; simpl; [reflexivity|].
  destruct (is_digit c) eqn:E; simpl; [now rewrite E|assumption].
Qed.

Lemma digits_only_fixed (s : string) : all_digits s = true -> digits_only s = s.
Proof.
  induction s as [|c s IH]; simpl; [reflexivity|].
  intros H. apply andb_prop in H as [Hc Hs]. rewrite Hc. now rewrite IH.
Qed.

Lemma digit_is_not_dot (c : ascii) : is_digit c = true -> Ascii.eqb c "." = false.
Proof.
  intros H. destruct (Ascii.eqb_spec c "."); [subst; discriminate H|reflexivity].
Qed.

Lemma before_first_dot_fixed (s : string) :
  all_digits s = true -> before_first_dot s = s.
Proof.
  induction s as [|c s IH]; simpl; [reflexivity|].
  intros H. apply andb_prop in H as [Hc Hs].
  rewrite (digit_is_not_dot c Hc). now rewrite IH.
Qed.

Lemma digits_only_none (s : string) : has_digit s = false -> digits_only s = EmptyString.
Proof.
  induction s as [|c s IH]; simpl; [reflexivity|].
  intros H. apply orb_false_elim in H as [Hc Hs]. rewrite Hc. now apply IH.
Qed.

Lemma price_conversion_str_fixed (s : string) :
  all_digits s = true -> price_conversion_str s = s.
Proof.
  intros H. rewrite price_conversion_str_spec. unfold spec_price_normalize.
  rewrite (before_first_dot_fixed s H). now apply digits_only_fixed.
Qed.

(** C8. For every string, [price_conversion] returns the digits of the
    text before the first "." and nothing else: it equals the normaliser
    written from the specification, its result holds digits only, it is
    the empty string when there is no digit before the first ".", an
    all-digit string is returned as it is, and normalising twice is
    normalising once. *)
Theorem price_conversion_digits_before_dot (s : string) :
  price_conversion (PyStr s) = OK (spec_price_normalize s)
  /\ all_digits (price_conversion_str s) = true
  /\ (has_digit (before_first_dot s) = false ->
      price_conversion (PyStr s) = OK EmptyString)
  /\ (all_digits s = true -> price_conversion (PyStr s) = OK s)
  /\ price_conversion_str (price_conversion_str s) = price_conversion_str s.
Proof.
  repeat split.
  - simpl. now rewrite price_conversion_str_spec.
  - rewrite price_conversion_str_spec. apply digits_only_all_digits.
  - intros H. simpl. rewrite price_conversion_str_spec.
    unfold spec_price_normalize. now rewrite digits_only_none.
  - intros H. simpl. now rewrite price_conversion_str_fixed.
  - apply price_conversion_str_fixed. rewrite price_conversion_str_spec.
    apply digits_only_all_digits.
Qed.

Lemma price_conversion_digits_before_dot_witness :
  (has_digit (before_first_dot "price") = false
   /\ price_conversion (PyStr "price") = OK EmptyString)
  /\ (all_digits "5990" = true
      /\ price_conversion (PyStr "5990") = OK "5990").
Proof.
  split; split.
  - reflexivity.
  - apply (proj1 (proj2 (proj2 (price_conversion_digits_before_dot "price")))).
    reflexivity.
  - reflexivity.
  - apply (proj1 (proj2 (proj2 (proj2 (price_conversion_digits_before_dot "5990"))))).
    reflexivity.
Defined.

(** ** Properties of the batcher *)

Section Divide.

Context {A : Type}.
Variable lst : list A.
Variable n : Z.
Hypothesis n_pos : 0 < n.

Let len : nat := List.length lst.

Lemma slice_index_inside (i : Z) :
  0 <= i -> slice_index lst i = Nat.min len (Z.to_nat i).
Proof.
  intros Hi. unfold slice_index. fold len.
  destruct (Z.ltb_spec i 0); lia.
Qed.

(** Inside the loop of [divide] a slice is the next [n] elements. *)
Lemma py_slice_step (i : nat) :
  (i <= len)%nat ->
  py_slice lst (Z.of_nat i) (Z.of_nat i + n)
  = firstn (Z.to_nat n) (skipn i lst).
Proof.
  intros Hi. unfold py_slice.
  rewrite !slice_index_inside by lia.
  replace (Nat.min len (Z.to_nat (Z.of_nat i))) with i by lia.
  destruct (Nat.le_gt_cases (i + Z.to_nat n) len) as [Hin|Hout].
  - f_equal. lia.
  - rewrite !firstn_all2; try reflexivity;
      rewrite length_skipn; fold len; lia.
Qed.

Lemma range_from_done (fuel : nat) (i stop : Z) :
  stop <= i -> range_from fuel i stop n = [].
Proof.
  intros H. destruct fuel; simpl; [reflexivity|].
  destruct (Z.ltb_spec i stop); [lia|reflexivity].
Qed.

Lemma slices_cons (fuel i : nat) :
  (i < len)%nat ->
  slices lst n (S fuel) i
  = firstn (Z.to_nat n) (skipn i lst) :: slices lst n fuel (i + Z.to_nat n).
Proof.
  intros Hi. unfold slices. fold len. simpl.
  destruct (Z.ltb_spec (Z.of_nat i) (Z.of_nat len)); [|lia].
  simpl. rewrite py_slice_step by lia.
  do 3 f_equal. lia.
Qed.

Lemma slices_nil (fuel i : nat) : (len <= i)%nat -> slices lst n fuel i = [].
Proof.
  intros Hi. unfold slices. fold len. rewrite range_from_done; [reflexivity|lia].
Qed.

Lemma slices_concat (fuel : nat) :
  forall i : nat, (i <= len)%nat -> (len - i <= fuel)%nat ->
  List.concat (slices lst n fuel i) = skipn i lst.
Proof.
  induction fuel as [|fuel IH]; intros i Hi Hfuel.
  - rewrite slices_nil by lia. simpl.
    symmetry. apply skipn_all2. fold len. lia.
  - destruct (Nat.eq_dec i len) as [->|Hne].
    + rewrite slices_nil by lia. simpl.
      symmetry. apply skipn_all2. fold len. lia.
    + rewrite slices_cons by lia. simpl.
      destruct (Nat.le_gt_cases (i + Z.to_nat n) len) as [Hin|Hout].
      * rewrite IH by lia.
        etransitivity; [|apply (firstn_skipn (Z.to_nat n))].
        f_equal. rewrite skipn_skipn. f_equal. lia.
      * rewrite slices_nil by lia. simpl. rewrite app_nil_r.
        apply firstn_all2. rewrite length_skipn. fold len. lia.
Qed.

Lemma slices_lengths (fuel : nat) :
  forall i : nat,
  Forall (fun b => (1 <= List.length b <= Z.to_nat n)%nat) (slices lst n fuel i).
Proof.
  induction fuel as [|fuel IH]; intros i.
  - constructor.
  - destruct (Nat.le_gt_cases len i) as [Hout|Hin].
    + rewrite slices_nil by lia. constructor.
    + rewrite slices_cons by lia. constructor; [|apply IH].
      rewrite length_firstn, length_skipn. fold len. lia.
Qed.

Lemma slices_full (fuel : nat) :
  forall i : nat, full_but_last (Z.to_nat n) (slices lst n fuel i).
Proof.
  induction fuel as [|fuel IH]; intros i.
  - exact I.
  - destruct (Nat.le_gt_cases len i) as [Hout|Hin].
    + rewrite slices_nil by lia. exact I.
    + rewrite slices_cons by lia.
      destruct (Nat.le_gt_cases len (i + Z.to_nat n)) as [Hlast|Hmore].
      * rewrite slices_nil by lia. exact I.
      * specialize (IH (i + Z.to_nat n)%nat).
        simpl. destruct (slices lst n fuel (i + Z.to_nat n)) eqn:E.
        -- exact I.
        -- split; [|exact IH].
           rewrite length_firstn, length_skipn. fold len. lia.
Qed.

Lemma divide_slices :
  divide lst n = OK (slices lst n len 0).
Proof.
  unfold divide, py_range, slices.
  destruct (Z.eqb_spec n 0); [lia|].
  destruct (Z.ltb_spec n 0); [lia|].
  simpl. fold len. do 3 f_equal. lia.
Qed.

End Divide.

(** C7. For a chunk size [n > 0] and a list [lst], [divide] yields a
    finite list of batches whose concatenation is [lst] (contiguous, in the
    original order, every element once), each batch non-empty and of
    length at most [n], and every batch but the last of length exactly
    [n]. *)
Theorem divide_covers_in_order {A : Type} (lst : list A) (n : Z) :
  0 < n ->
  exists batches : list (list A),
    divide lst n = OK batches
    /\ List.concat batches = lst
    /\ Forall (fun b => 1 <= Z.of_nat (List.length b) <= n) batches
    /\ full_but_last (Z.to_nat n) batches.
Proof.
  intros Hn. exists (slices lst n (List.length lst) 0).
  split; [now apply divide_slices|].
  split; [rewrite slices_concat by (trivial; lia); reflexivity|].
  split; [|now apply slices_full].
  eapply Forall_impl; [|apply (slices_lengths lst n Hn)].
  simpl. intros b Hb. lia.
Qed.

Lemma divide_covers_in_order_witness :
  0 < 2 /\
  exists batches : list (list Z),
    divide [1; 2; 3; 4; 5] 2 = OK batches
    /\ List.concat batches = [1; 2; 3; 4; 5]
    /\ Forall (fun b => 1 <= Z.of_nat (List.length b) <= 2) batches
    /\ full_but_last (Z.to_nat 2) batches.
Proof.
  split; [lia|]. apply (divide_covers_in_order [1; 2; 3; 4; 5] 2). lia.
Defined.

(** ** The working list of offer ids *)

Lemma mem_In (x : string) (l : list string) : mem x l = true <-> In x l.
Proof.
  unfold mem. rewrite existsb_exists. split.
  - intros [y [Hy E]]. apply String.eqb_eq in E. now subst.
  - intros H. exists x. split; [assumption|apply String.eqb_refl].
Qed.

Lemma mem_not_In (x : string) (l : list string) : mem x l = false <-> ~ In x l.
Proof.
  rewrite <- mem_In. destruct (mem x l); split; congruence.
Qed.

Lemma remove_first_absent (x : string) (l : list string) :
  mem x l = false -> remove_first x l = l.
Proof.
  induction l as [|y l IH]; simpl; [reflexivity|].
  destruct (String.eqb x y); simpl; [discriminate|].
  intros H. now rewrite IH.
Qed.

Lemma remove_first_perm (x : string) (l : list string) :
  mem x l = true -> Permutation (x :: remove_first x l) l.
Proof.
  induction l as [|y l IH]; simpl; [discriminate|].
  destruct (String.eqb_spec x y) as [->|Hne]; simpl; intros H.
  - reflexivity.
  - rewrite perm_swap. now rewrite IH.
Qed.

Lemma remove_first_filter (x : string) (l : list string) :
  NoDup l -> remove_first x l = filter (fun y => negb (String.eqb x y)) l.
Proof.
  induction 1 as [|y l Hy Hl IH]; simpl; [reflexivity|].
  destruct (String.eqb_spec x y) as [->|Hne]; simpl.
  - rewrite <- IH. symmetry. apply remove_first_absent. now apply mem_not_In.
  - now rewrite IH.
Qed.

Lemma filter_filter {A : Type} (f g : A -> bool) (l : list A) :
  filter f (filter g l) = filter (fun x => g x && f x) l.
Proof.
  induction l as [|x l IH]; simpl; [reflexivity|].
  destruct (g x); simpl; [destruct (f x)|]; now rewrite IH.
Qed.

Lemma remaining_ids_filter (rows : list watch) :
  forall ids : list string,
  NoDup ids -> remaining_ids rows ids = unmatched_ids rows ids.
Proof.
  unfold remaining_ids, unmatched_ids.
  induction rows as [|w rows IH]; intros ids Hnd; simpl.
  - induction ids as [|y ids IHids]; simpl; [reflexivity|].
    f_equal. apply IHids. now inversion Hnd.
  - rewrite remove_first_filter by assumption.
    rewrite IH by now apply NoDup_filter.
    rewrite filter_filter. apply filter_ext. intros id.
    unfold mem. simpl. rewrite negb_orb. now rewrite (String.eqb_sym id).
Qed.

Lemma remaining_ids_untouched (rows : list watch) (x : string) :
  forall ids : list string,
  ~ In x (map code_of rows) ->
  count_occ string_dec (remaining_ids rows ids) x = count_occ string_dec ids x.
Proof.
  unfold remaining_ids.
  induction rows as [|w rows IH]; intros ids Hx; simpl; [reflexivity|].
  simpl in Hx. rewrite IH by tauto.
  assert (Hne : code_of w <> x) by tauto.
  clear -Hne. induction ids as [|y ids IHids]; simpl; [reflexivity|].
  destruct (String.eqb_spec (code_of w) y) as [<-|Hy]; simpl.
  - destruct (string_dec (code_of w) x); [contradiction|reflexivity].
  - destruct (string_dec y x); now rewrite IHids.
Qed.

Lemma matched_remaining_perm (rows : list watch) :
  forall ids : list string,
  Permutation (map code_of (matched_rows rows ids) ++ remaining_ids rows ids) ids.
Proof.
  unfold remaining_ids.
  induction rows as [|w rows IH]; intros ids; simpl; [reflexivity|].
  destruct (mem (code_of w) ids) eqn:E; simpl.
  - rewrite IH. now apply remove_first_perm.
  - rewrite (remove_first_absent _ _ E). apply IH.
Qed.

(** With no duplicate among the known ids, the rows matched are the first
    rows of the codes that are known ids. *)
Lemma mem_filter (x : string) (f : string -> bool) (l : list string) :
  mem x (filter f l) = mem x l && f x.
Proof.
  induction l as [|y l IH]; simpl; [reflexivity|].
  destruct (f y) eqn:Ef; simpl; rewrite IH.
  - destruct (String.eqb_spec x y) as [->|]; simpl; [now rewrite Ef|reflexivity].
  - destruct (String.eqb_spec x y) as [->|]; simpl; [|reflexivity].
    rewrite Ef. now rewrite andb_false_r.
Qed.

Lemma unseen_step (seen : list string) (c : string) (ids0 : list string) :
  NoDup ids0 ->
  remove_first c (filter (unseen seen) ids0) = filter (unseen (c :: seen)) ids0.
Proof.
  intros Hnd. rewrite remove_first_filter by now apply NoDup_filter.
  rewrite filter_filter. apply filter_ext. intros id.
  unfold unseen, mem. simpl. rewrite negb_orb.
  rewrite (String.eqb_sym id). apply andb_comm.
Qed.

Lemma matched_first_matching (rows : list watch) (ids0 : list string) :
  NoDup ids0 ->
  forall seen : list string,
  matched_rows rows (filter (unseen seen) ids0) = first_matching seen rows ids0.
Proof.
  intros Hnd. induction rows as [|w rows IH]; intros seen; simpl; [reflexivity|].
  rewrite mem_filter. fold (unseen seen (code_of w)).
  destruct (mem (code_of w) ids0 && unseen seen (code_of w)) eqn:E.
  - rewrite unseen_step by assumption. now rewrite IH.
  - rewrite <- IH. f_equal. rewrite <- unseen_step by assumption.
    symmetry. apply remove_first_absent. now rewrite mem_filter.
Qed.

Lemma filter_all {A : Type} (f : A -> bool) (l : list A) :
  (forall x, f x = true) -> filter f l = l.
Proof.
  intros H. induction l as [|x l IH]; simpl; [reflexivity|].
  now rewrite H, IH.
Qed.

Lemma matched_rows_nodup (rows : list watch) (ids : list string) :
  NoDup ids -> matched_rows rows ids = first_matching [] rows ids.
Proof.
  intros Hnd. rewrite <- (matched_first_matching rows ids Hnd []).
  now rewrite filter_all.
Qed.

(** ** The stock loops, one row at a time *)

Lemma seller_stocks_loop_cons (w : watch) (rest : list watch)
    (stocks : list Seller.stock_record) (ids : list string) :
  Seller.stocks_loop (w :: rest) stocks ids =
  if mem (code_of w) ids then
    match stock_count (Kolichestvo w) with
    | OK c =>
        Seller.stocks_loop rest (stocks ++ [Seller.mkStock (code_of w) c])
                           (remove_first (code_of w) ids)
    | Raise e => (Raise e, ids)
    end
  else Seller.stocks_loop rest stocks ids.
Proof.
  unfold code_of. simpl. unfold bind, contains, lift, list_remove.
  destruct (mem (py_str (Kod w)) ids) eqn:E; [|reflexivity].
  destruct (stock_count (Kolichestvo w)); [|reflexivity].
  now rewrite E.
Qed.

Lemma market_stocks_loop_cons (wh date : string) (w : watch)
    (rest : list watch) (stocks : list Market.stock_record)
    (ids : list string) :
  Market.stocks_loop wh date (w :: rest) stocks ids =
  if mem (code_of w) ids then
    match stock_count (Kolichestvo w) with
    | OK c =>
        Market.stocks_loop wh date rest
          (stocks ++ [Market.mkStock (code_of w) wh [Market.mkItem c "FIT" date]])
          (remove_first (code_of w) ids)
    | Raise e => (Raise e, ids)
    end
  else Market.stocks_loop wh date rest stocks ids.
Proof.
  unfold code_of. simpl. unfold bind, contains, lift, list_remove.
  destruct (mem (py_str (Kod w)) ids) eqn:E; [|reflexivity].
  destruct (stock_count (Kolichestvo w)); [|reflexivity].
  now rewrite E.
Qed.

(** The Yandex Market stock builder is the Ozon one, record for record. *)
Lemma market_stocks_loop_sim (wh date : string) (rows : list watch) :
  forall (stocks : list Seller.stock_record) (ids : list string),
  Market.stocks_loop wh date rows (map (to_market wh date) stocks) ids =
  (res_map (map (to_market wh date)) (fst (Seller.stocks_loop rows stocks ids)),
   snd (Seller.stocks_loop rows stocks ids)).
Proof.
  induction rows as [|w rows IH]; intros stocks ids.
  - reflexivity.
  - rewrite market_stocks_loop_cons, seller_stocks_loop_cons.
    destruct (mem (code_of w) ids); [|apply IH].
    destruct (stock_count (Kolichestvo w)) as [c|e]; [|reflexivity].
    rewrite <- IH. now rewrite map_app.
Qed.

Lemma market_create_stocks_sim (wh date : string) (rows : list watch)
    (ids : list string) :
  Market.create_stocks date rows wh ids =
  (res_map (map (to_market wh date)) (fst (Seller.create_stocks rows ids)),
   snd (Seller.create_stocks rows ids)).
Proof.
  unfold Market.create_stocks, Seller.create_stocks, bind, contents, ret.
  change (@nil Market.stock_record) with (map (to_market wh date) []).
  rewrite market_stocks_loop_sim.
  destruct (Seller.stocks_loop rows [] ids) as [[stocks|e] ids']; simpl;
    [|reflexivity].
  now rewrite map_app, map_map.
Qed.

(** What a completed stock loop leaves: the working list after the
    removals, and one record for each matched row, appended in order. *)
Lemma seller_stocks_loop_ok (rows : list watch) :
  forall (stocks out : list Seller.stock_record) (ids ids' : list string),
  Seller.stocks_loop rows stocks ids = (OK out, ids') ->
  ids' = remaining_ids rows ids
  /\ exists recs : list Seller.stock_record,
       out = stocks ++ recs
       /\ Forall2 seller_stock_of (matched_rows rows ids) recs.
Proof.
  unfold remaining_ids.
  induction rows as [|w rows IH]; intros stocks out ids ids' H.
  - injection H as <- <-. split; [reflexivity|].
    exists []. split; [now rewrite app_nil_r|constructor].
  - rewrite seller_stocks_loop_cons in H. simpl.
    destruct (mem (code_of w) ids) eqn:E.
    + destruct (stock_count (Kolichestvo w)) as [c|e] eqn:Ec; [|discriminate].
      apply IH in H as [-> [recs [-> HF]]]. split; [reflexivity|].
      exists (Seller.mkStock (code_of w) c :: recs).
      split; [now rewrite <- app_assoc|].
      constructor; [|assumption]. now split.
    + apply IH in H as [-> [recs [-> HF]]].
      rewrite (remove_first_absent _ _ E). split; [reflexivity|].
      now exists recs.
Qed.

(** Whatever the outcome, the loop has removed ids and nothing else: the
    contents are those left by a prefix of the rows. *)
Lemma seller_stocks_loop_state (rows : list watch) :
  forall (stocks : list Seller.stock_record) (ids : list string),
  exists k : nat,
    snd (Seller.stocks_loop rows stocks ids) = remaining_ids (firstn k rows) ids.
Proof.
  unfold remaining_ids.
  induction rows as [|w rows IH]; intros stocks ids.
  - now exists 0%nat.
  - rewrite seller_stocks_loop_cons.
    destruct (mem (code_of w) ids) eqn:E.
    + destruct (stock_count (Kolichestvo w)) as [c|e].
      * destruct (IH (stocks ++ [Seller.mkStock (code_of w) c])
                     (remove_first (code_of w) ids)) as [k Hk].
        exists (S k). exact Hk.
      * now exists 0%nat.
    + destruct (IH stocks ids) as [k Hk]. exists (S k). simpl.
      now rewrite (remove_first_absent _ _ E).
Qed.

Lemma seller_create_stocks_ok (rows : list watch) (ids ids' : list string)
    (stocks : list Seller.stock_record) :
  Seller.create_stocks rows ids = (OK stocks, ids') ->
  ids' = remaining_ids rows ids
  /\ exists recs : list Seller.stock_record,
       stocks = recs ++ map (fun id => Seller.mkStock id 0) ids'
       /\ Forall2 seller_stock_of (matched_rows rows ids) recs.
Proof.
  unfold Seller.create_stocks, bind, contents, ret.
  destruct (Seller.stocks_loop rows [] ids) as [[out|e] ids1] eqn:E;
    [|discriminate].
  intros H. injection H as <- <-.
  apply seller_stocks_loop_ok in E as [-> [recs [-> HF]]].
  split; [reflexivity|]. now exists recs.
Qed.

Lemma Forall2_offer_ids (ws : list watch) (recs : list Seller.stock_record) :
  Forall2 seller_stock_of ws recs ->
  map Seller.offer_id recs = map code_of ws.
Proof.
  induction 1 as [|w r ws recs [Hid _] _ IH]; simpl; [reflexivity|].
  now rewrite Hid, IH.
Qed.

Lemma Forall2_to_market (wh date : string) (ws : list watch)
    (recs : list Seller.stock_record) :
  Forall2 seller_stock_of ws recs ->
  Forall2 (market_stock_of wh date) ws (map (to_market wh date) recs).
Proof.
  induction 1 as [|w r ws recs [Hid Hc] _ IH]; simpl; constructor;
    [|assumption].
  exists (Seller.stock r). unfold to_market. now rewrite Hid.
Qed.

Lemma market_create_stocks_ok (wh date : string) (rows : list watch)
    (ids ids' : list string) (stocks : list Market.stock_record) :
  Market.create_stocks date rows wh ids = (OK stocks, ids') ->
  ids' = remaining_ids rows ids
  /\ exists recs : list Market.stock_record,
       stocks = recs ++
                map (fun id => Market.mkStock id wh [Market.mkItem 0 "FIT" date])
                    ids'
       /\ Forall2 (market_stock_of wh date) (matched_rows rows ids) recs.
Proof.
  rewrite market_create_stocks_sim.
  destruct (Seller.create_stocks rows ids) as [[s|e] ids1] eqn:E; simpl;
    [|discriminate].
  intros H. injection H as <- <-.
  apply seller_create_stocks_ok in E as [-> [recs [-> HF]]].
  split; [reflexivity|].
  exists (map (to_market wh date) recs).
  split; [now rewrite map_app, map_map|].
  now apply Forall2_to_market.
Qed.

(** ** The price loops, one row at a time *)

Lemma seller_prices_loop_cons (w : watch) (rest : list watch)
    (prices : list Seller.price_record) (ids : list string) :
  Seller.prices_loop (w :: rest) prices ids =
  if mem (code_of w) ids then
    match price_conversion (Tsena w) with
    | OK p =>
        Seller.prices_loop rest
          (prices ++ [Seller.mkPrice "UNKNOWN" "RUB" (code_of w) "0" p]) ids
    | Raise e => (Raise e, ids)
    end
  else Seller.prices_loop rest prices ids.
Proof.
  unfold code_of. simpl. unfold bind, contains, lift.
  destruct (mem (py_str (Kod w)) ids); [|reflexivity].
  now destruct (price_conversion (Tsena w)).
Qed.

Lemma market_prices_loop_cons (w : watch) (rest : list watch)
    (prices : list Market.price_record) (ids : list string) :
  Market.prices_loop (w :: rest) prices ids =
  if mem (code_of w) ids then
    match price_conversion (Tsena w) with
    | OK p =>
        match int_of_str p with
        | Some v =>
            Market.prices_loop rest
              (prices ++ [Market.mkPrice (code_of w) (Market.mkValue v "RUR")])
              ids
        | None => (Raise ValueError, ids)
        end
    | Raise e => (Raise e, ids)
    end
  else Market.prices_loop rest prices ids.
Proof.
  unfold code_of. simpl. unfold bind, contains, lift.
  destruct (mem (py_str (Kod w)) ids); [|reflexivity].
  destruct (price_conversion (Tsena w)) as [p|e]; [|reflexivity].
  simpl. now destruct (int_of_str p).
Qed.

Lemma seller_prices_loop_readonly (rows : list watch) :
  forall (prices : list Seller.price_record) (ids : list string),
  snd (Seller.prices_loop rows prices ids) = ids.
Proof.
  induction rows as [|w rows IH]; intros prices ids; [reflexivity|].
  rewrite seller_prices_loop_cons.
  destruct (mem (code_of w) ids); [|apply IH].
  destruct (price_conversion (Tsena w)); [apply IH|reflexivity].
Qed.

Lemma market_prices_loop_readonly (rows : list watch) :
  forall (prices : list Market.price_record) (ids : list string),
  snd (Market.prices_loop rows prices ids) = ids.
Proof.
  induction rows as [|w rows IH]; intros prices ids; [reflexivity|].
  rewrite market_prices_loop_cons.
  destruct (mem (code_of w) ids); [|apply IH].
  destruct (price_conversion (Tsena w)) as [p|e]; [|reflexivity].
  destruct (int_of_str p); [apply IH|reflexivity].
Qed.

Lemma seller_prices_loop_ok (rows : list watch) (ids : list string) :
  forall (prices out : list Seller.price_record) (ids' : list string),
  Seller.prices_loop rows prices ids = (OK out, ids') ->
  exists recs : list Seller.price_record,
    out = prices ++ recs /\ Forall2 seller_price_of (known_rows rows ids) recs.
Proof.
  unfold known_rows.
  induction rows as [|w rows IH]; intros prices out ids' H.
  - injection H as <- _. exists []. split; [now rewrite app_nil_r|constructor].
  - rewrite seller_prices_loop_cons in H. simpl.
    destruct (mem (code_of w) ids); [|now apply IH in H].
    destruct (price_conversion (Tsena w)) as [p|e] eqn:Ep; [|discriminate].
    apply IH in H as [recs [-> HF]].
    exists (Seller.mkPrice "UNKNOWN" "RUB" (code_of w) "0" p :: recs).
    split; [now rewrite <- app_assoc|].
    constructor; [|assumption]. now exists p.
Qed.

Lemma market_prices_loop_ok (rows : list watch) (ids : list string) :
  forall (prices out : list Market.price_record) (ids' : list string),
  Market.prices_loop rows prices ids = (OK out, ids') ->
  exists recs : list Market.price_record,
    out = prices ++ recs /\ Forall2 market_price_of (known_rows rows ids) recs.
Proof.
  unfold known_rows.
  induction rows as [|w rows IH]; intros prices out ids' H.
  - injection H as <- _. exists []. split; [now rewrite app_nil_r|constructor].
  - rewrite market_prices_loop_cons in H. simpl.
    destruct (mem (code_of w) ids); [|now apply IH in H].
    destruct (price_conversion (Tsena w)) as [p|e] eqn:Ep; [|discriminate].
    destruct (int_of_str p) as [v|] eqn:Ev; [|discriminate].
    apply IH in H as [recs [-> HF]].
    exists (Market.mkPrice (code_of w) (Market.mkValue v "RUR") :: recs).
    split; [now rewrite <- app_assoc|].
    constructor; [|assumption]. now exists p, v.
Qed.

Lemma seller_prices_loop_skip (rows : list watch) (ids : list string) :
  forall prices : list Seller.price_record,
  known_rows rows ids = [] ->
  Seller.prices_loop rows prices ids = (OK prices, ids).
Proof.
  unfold known_rows.
  induction rows as [|w rows IH]; intros prices H; [reflexivity|].
  rewrite seller_prices_loop_cons. simpl in H.
  destruct (mem (code_of w) ids); [discriminate|now apply IH].
Qed.

Lemma market_prices_loop_skip (rows : list watch) (ids : list string) :
  forall prices : list Market.price_record,
  known_rows rows ids = [] ->
  Market.prices_loop rows prices ids = (OK prices, ids).
Proof.
  unfold known_rows.
  induction rows as [|w rows IH]; intros prices H; [reflexivity|].
  rewrite market_prices_loop_cons. simpl in H.
  destruct (mem (code_of w) ids); [discriminate|now apply IH].
Qed.

(** ** The stock batch *)

(** C1. With no duplicate among the known offer ids, a stock batch that
    [create_stocks] returns is, in this order: one record for each
    inventory row that is the first of its code and whose code is a known
    id (offer id the code, count the resolved quantity), in inventory
    order; then one zero-count record for each known id that is the code
    of no row, in the order the ids were supplied.  Its offer ids are the
    known ids rearranged, each exactly once.  Both adapters. *)
Theorem stock_batch_one_record_per_offer (wh date : string)
    (rows : list watch) (ids : list string) :
  NoDup ids ->
  (forall (stocks : list Seller.stock_record) (ids' : list string),
     Seller.create_stocks rows ids = (OK stocks, ids') ->
     (exists recs : list Seller.stock_record,
        stocks = recs ++
                 map (fun id => Seller.mkStock id 0) (unmatched_ids rows ids)
        /\ Forall2 seller_stock_of (first_matching [] rows ids) recs)
     /\ Permutation (map Seller.offer_id stocks) ids
     /\ NoDup (map Seller.offer_id stocks))
  /\
  (forall (stocks : list Market.stock_record) (ids' : list string),
     Market.create_stocks date rows wh ids = (OK stocks, ids') ->
     (exists recs : list Market.stock_record,
        stocks = recs ++
                 map (fun id =>
                        Market.mkStock id wh [Market.mkItem 0 "FIT" date])
                     (unmatched_ids rows ids)
        /\ Forall2 (market_stock_of wh date) (first_matching [] rows ids) recs)
     /\ Permutation (map Market.sku stocks) ids
     /\ NoDup (map Market.sku stocks)).
Proof.
  intros Hnd.
  assert (HS : forall stocks ids',
    Seller.create_stocks rows ids = (OK stocks, ids') ->
    (exists recs : list Seller.stock_record,
        stocks = recs ++
                 map (fun id => Seller.mkStock id 0) (unmatched_ids rows ids)
        /\ Forall2 seller_stock_of (first_matching [] rows ids) recs)
     /\ Permutation (map Seller.offer_id stocks) ids
     /\ NoDup (map Seller.offer_id stocks)).
  { intros stocks ids' H.
    apply seller_create_stocks_ok in H as [-> [recs [-> HF]]].
    assert (HP : Permutation
                   (map Seller.offer_id
                      (recs ++ map (fun id => Seller.mkStock id 0)
                                   (remaining_ids rows ids))) ids).
    { rewrite map_app, map_map. simpl. rewrite map_id.
      rewrite (Forall2_offer_ids _ _ HF). apply matched_remaining_perm. }
    split; [|split; [exact HP|]].
    - exists recs. rewrite <- remaining_ids_filter by assumption.
      split; [reflexivity|]. now rewrite <- matched_rows_nodup.
    - eapply Permutation_NoDup; [symmetry; exact HP|assumption]. }
  split; [exact HS|].
  intros stocks ids' H. rewrite market_create_stocks_sim in H.
  destruct (Seller.create_stocks rows ids) as [[s|e] ids1] eqn:E; simpl in H;
    [|discriminate].
  injection H as <- <-.
  destruct (HS s ids1 eq_refl) as [[recs [-> HF]] [HP HN]].
  assert (Hsku : map Market.sku (map (to_market wh date)
                   (recs ++ map (fun id => Seller.mkStock id 0)
                                (unmatched_ids rows ids)))
                 = map Seller.offer_id
                     (recs ++ map (fun id => Seller.mkStock id 0)
                                  (unmatched_ids rows ids))).
  { rewrite map_map. reflexivity. }
  rewrite Hsku. split; [|now split].
  exists (map (to_market wh date) recs).
  split; [now rewrite map_app, map_map|].
  now apply Forall2_to_market.
Qed.

Lemma nodup_101_102 : NoDup ["101"; "102"].
Proof.
  repeat constructor; simpl; intuition discriminate.
Qed.

Lemma stock_batch_one_record_per_offer_witness :
  NoDup ["101"; "102"]
  /\ Permutation
       (map Seller.offer_id [Seller.mkStock "101" 5; Seller.mkStock "102" 0])
       ["101"; "102"].
Proof.
  split; [exact nodup_101_102|].
  apply (proj1 (stock_batch_one_record_per_offer "W" "D"
            [mkWatch (PyStr "101") (PyStr "Casio") (PyStr "5'990.00") (PyStr "5")]
            ["101"; "102"] nodup_101_102)
           [Seller.mkStock "101" 5; Seller.mkStock "102" 0] ["102"]).
  reflexivity.
Defined.

(** ** What the builders do to the list of offer ids *)

(** C9. When [create_stocks] completes, the list of offer ids has lost,
    for each inventory row in turn, the first occurrence of the row's
    code if there was one, and nothing else: the ids removed are those of
    the matched rows, an id that is the code of no row keeps all its
    occurrences, and with no duplicate among the ids the list left is the
    ids matched by no row, in their order.  [create_prices] leaves the
    list as it found it on every input, also when it raises.  When
    [create_stocks] raises, the list has lost what the rows before the
    failing one removed, and nothing else.  Both adapters. *)
Theorem stocks_consume_prices_read_only (wh date : string)
    (rows : list watch) (ids : list string) :
  (forall (stocks : list Seller.stock_record) (ids' : list string),
     Seller.create_stocks rows ids = (OK stocks, ids') ->
     ids' = remaining_ids rows ids
     /\ Permutation (map code_of (matched_rows rows ids) ++ ids') ids
     /\ (forall x : string, ~ In x (map code_of rows) ->
         count_occ string_dec ids' x = count_occ string_dec ids x)
     /\ (NoDup ids -> ids' = unmatched_ids rows ids))
  /\
  (forall (stocks : list Market.stock_record) (ids' : list string),
     Market.create_stocks date rows wh ids = (OK stocks, ids') ->
     ids' = remaining_ids rows ids
     /\ Permutation (map code_of (matched_rows rows ids) ++ ids') ids
     /\ (forall x : string, ~ In x (map code_of rows) ->
         count_occ string_dec ids' x = count_occ string_dec ids x)
     /\ (NoDup ids -> ids' = unmatched_ids rows ids))
  /\ snd (Seller.create_prices rows ids) = ids
  /\ snd (Market.create_prices rows ids) = ids
  /\ (exists k : nat,
      snd (Seller.create_stocks rows ids) = remaining_ids (firstn k rows) ids
      /\ snd (Market.create_stocks date rows wh ids)
         = remaining_ids (firstn k rows) ids).
Proof.
  assert (HR : forall ids' : list string,
    ids' = remaining_ids rows ids ->
    ids' = remaining_ids rows ids
    /\ Permutation (map code_of (matched_rows rows ids) ++ ids') ids
    /\ (forall x : string, ~ In x (map code_of rows) ->
        count_occ string_dec ids' x = count_occ string_dec ids x)
    /\ (NoDup ids -> ids' = unmatched_ids rows ids)).
  { intros ids' ->. split; [reflexivity|].
    split; [apply matched_remaining_perm|].
    split; [intros x Hx; now apply remaining_ids_untouched|].
    apply remaining_ids_filter. }
  split; [|split; [|split; [|split]]].
  - intros stocks ids' H. apply HR.
    now apply seller_create_stocks_ok in H as [-> _].
  - intros stocks ids' H. apply HR.
    now apply market_create_stocks_ok in H as [-> _].
  - apply seller_prices_loop_readonly.
  - apply market_prices_loop_readonly.
  - destruct (seller_stocks_loop_state rows [] ids) as [k Hk]. exists k.
    rewrite market_create_stocks_sim. simpl.
    assert (E : snd (Seller.create_stocks rows ids)
                = snd (Seller.stocks_loop rows [] ids)).
    { unfold Seller.create_stocks, bind, contents, ret.
      now destruct (Seller.stocks_loop rows [] ids) as [[out|e] ids1]. }
    rewrite E. now split.
Qed.

Lemma stocks_consume_prices_read_only_witness :
  ["102"] = remaining_ids
              [mkWatch (PyStr "101") (PyStr "Casio") (PyStr "5'990.00") (PyStr "5")]
              ["101"; "102"]
  /\ NoDup ["101"; "102"]
  /\ ["102"] = unmatched_ids
                 [mkWatch (PyStr "101") (PyStr "Casio") (PyStr "5'990.00")
                          (PyStr "5")]
                 ["101"; "102"].
Proof.
  pose proof (proj1 (stocks_consume_prices_read_only "W" "D"
            [mkWatch (PyStr "101") (PyStr "Casio") (PyStr "5'990.00") (PyStr "5")]
            ["101"; "102"])
           [Seller.mkStock "101" 5; Seller.mkStock "102" 0] ["102"] eq_refl)
    as [H1 [_ [_ H4]]].
  split; [exact H1|].
  split; [exact nodup_101_102|exact (H4 nodup_101_102)].
Defined.

(** ** The price batch *)

(** C3. A price batch that [create_prices] returns holds one record for
    each inventory row whose code is a known offer id, in inventory
    order, built from that row (its code, its normalised price), and
    nothing else; when no row has a known code both builders return the
    empty list.  Both adapters. *)
Theorem price_batch_known_rows_only (rows : list watch) (ids : list string) :
  (forall (prices : list Seller.price_record) (ids' : list string),
     Seller.create_prices rows ids = (OK prices, ids') ->
     Forall2 seller_price_of (known_rows rows ids) prices)
  /\
  (forall (prices : list Market.price_record) (ids' : list string),
     Market.create_prices rows ids = (OK prices, ids') ->
     Forall2 market_price_of (known_rows rows ids) prices)
  /\
  ((forall w : watch, In w rows -> mem (code_of w) ids = false) ->
   Seller.create_prices rows ids = (OK [], ids)
   /\ Market.create_prices rows ids = (OK [], ids)).
Proof.
  split; [|split].
  - intros prices ids' H.
    now apply seller_prices_loop_ok in H as [recs [-> HF]].
  - intros prices ids' H.
    now apply market_prices_loop_ok in H as [recs [-> HF]].
  - intros Hno.
    assert (E : known_rows rows ids = []).
    { unfold known_rows. induction rows as [|w rows' IH]; [reflexivity|].
      simpl. rewrite (Hno w) by now left.
      apply IH. intros w' Hw'. apply Hno. now right. }
    split; [now apply seller_prices_loop_skip|now apply market_prices_loop_skip].
Qed.

Lemma price_batch_known_rows_only_witness :
  Forall2 seller_price_of
    (known_rows
       [mkWatch (PyStr "101") (PyStr "Casio") (PyStr "5'990.00") (PyStr "5");
        mkWatch (PyStr "777") (PyStr "Casio") (PyStr "100") (PyStr "1")]
       ["101"; "102"])
    [Seller.mkPrice "UNKNOWN" "RUB" "101" "0" "5990"]
  /\ Seller.create_prices
       [mkWatch (PyStr "101") (PyStr "Casio") (PyStr "5990") (PyStr "5")]
       ["999"] = (OK [], ["999"]).
Proof.
  split.
  - apply (proj1 (price_batch_known_rows_only
       [mkWatch (PyStr "101") (PyStr "Casio") (PyStr "5'990.00") (PyStr "5");
        mkWatch (PyStr "777") (PyStr "Casio") (PyStr "100") (PyStr "1")]
       ["101"; "102"])
       [Seller.mkPrice "UNKNOWN" "RUB" "101" "0" "5990"] ["101"; "102"]).
    reflexivity.
  - apply (proj2 (proj2 (price_batch_known_rows_only
       [mkWatch (PyStr "101") (PyStr "Casio") (PyStr "5990") (PyStr "5")]
       ["999"]))).
    intros w [<-|[]]. reflexivity.
Defined.

(** ** Quantities *)

Lemma int_digits_all_digits (s : string) :
  forall acc : Z,
  all_digits s = true -> int_digits acc s = Some (decimal_value acc s).
Proof.
  induction s as [|c s IH]; intros acc H; simpl in *; [reflexivity|].
  apply andb_prop in H as [Hc Hs]. rewrite Hc. now apply IH.
Qed.

Lemma digit_not_space (c : ascii) : is_digit c = true -> is_space c = false.
Proof.
  unfold is_digit, is_space. intros H.
  apply andb_prop in H as [H1 H2].
  apply Nat.leb_le in H1. apply Nat.leb_le in H2.
  destruct (Nat.leb_spec 9 (nat_of_ascii c)), (Nat.leb_spec (nat_of_ascii c) 13),
    (Nat.leb_spec 28 (nat_of_ascii c)), (Nat.leb_spec (nat_of_ascii c) 32);
    simpl; try reflexivity; lia.
Qed.

Lemma digit_not_sign (c : ascii) :
  is_digit c = true -> c <> "+"%char /\ c <> "-"%char.
Proof.
  intros H. split; intros ->; discriminate H.
Qed.

(** On a non-empty string of digits [int] gives the decimal value. *)
Lemma int_of_str_digits (s : string) :
  all_digits s = true -> s <> EmptyString ->
  int_of_str s = Some (decimal_value 0 s).
Proof.
  destruct s as [|c s]; [congruence|]. intros H _.
  simpl in H. apply andb_prop in H as [Hc Hs].
  assert (E : int_of_str (String c s) = int_unsigned (String c s)).
  { unfold int_of_str. simpl lstrip. rewrite (digit_not_space c Hc).
    destruct (digit_not_sign c Hc) as [Hp Hm].
    destruct c as [[] [] [] [] [] [] [] []]; try reflexivity; congruence. }
  rewrite E. simpl. rewrite Hc.
  now apply int_digits_all_digits.
Qed.

Lemma int_of_str_empty : int_of_str EmptyString = None.
Proof. reflexivity. Qed.






(** ** Prices that do not parse *)



Lemma price_conversion_digits_only (s : string) :
  all_digits (price_conversion_str s) = true.
Proof.
  rewrite price_conversion_str_spec. apply digits_only_all_digits.
Qed.





(** ** Codes that are not strings *)

Lemma Forall2_seller_price_ids (ws : list watch)
    (recs : list Seller.price_record) :
  Forall2 seller_price_of ws recs ->
  map Seller.p_offer_id recs = map code_of ws.
Proof.
  induction 1 as [|w r ws recs [p [_ ->]] _ IH]; simpl; [reflexivity|].
  now rewrite IH.
Qed.

Lemma Forall2_market_price_ids (ws : list watch)
    (recs : list Market.price_record) :
  Forall2 market_price_of ws recs ->
  map Market.id recs = map code_of ws.
Proof.
  induction 1 as [|w r ws recs [p [v [_ [_ ->]]]] _ IH]; simpl; [reflexivity|].
  now rewrite IH.
Qed.

Lemma Forall2_market_skus (wh date : string) (ws : list watch)
    (recs : list Market.stock_record) :
  Forall2 (market_stock_of wh date) ws recs ->
  map Market.sku recs = map code_of ws.
Proof.
  induction 1 as [|w r ws recs [c [-> _]] _ IH]; simpl; [reflexivity|].
  now rewrite IH.
Qed.

(** C10. Both builders of both adapters compare [str] of a row's code
    with the known offer ids, and write [str] of the code into the record
    of a matched row: the ids of a stock batch are the string forms of the
    codes of the matched rows followed by the ids left over, those of a
    price batch the string forms of the codes of the rows with a known
    code.  A row whose code is the integer 101 matches the offer id
    ["101"] and gets a record with that id. *)
Theorem code_compared_as_string (wh date : string) (rows : list watch)
    (ids : list string) :
  (forall (stocks : list Seller.stock_record) (ids' : list string),
     Seller.create_stocks rows ids = (OK stocks, ids') ->
     map Seller.offer_id stocks
     = map (fun w => py_str (Kod w)) (matched_rows rows ids) ++ ids')
  /\ (forall (stocks : list Market.stock_record) (ids' : list string),
     Market.create_stocks date rows wh ids = (OK stocks, ids') ->
     map Market.sku stocks
     = map (fun w => py_str (Kod w)) (matched_rows rows ids) ++ ids')
  /\ (forall (prices : list Seller.price_record) (ids' : list string),
     Seller.create_prices rows ids = (OK prices, ids') ->
     map Seller.p_offer_id prices
     = map (fun w => py_str (Kod w)) (known_rows rows ids))
  /\ (forall (prices : list Market.price_record) (ids' : list string),
     Market.create_prices rows ids = (OK prices, ids') ->
     map Market.id prices
     = map (fun w => py_str (Kod w)) (known_rows rows ids))
  /\ (forall name tsena : pyval,
     Seller.create_stocks [mkWatch (PyInt 101) name tsena (PyInt 5)] ["101"]
     = (OK [Seller.mkStock "101" 5], [])
     /\ Market.create_stocks date [mkWatch (PyInt 101) name tsena (PyInt 5)]
          wh ["101"]
        = (OK [Market.mkStock "101" wh [Market.mkItem 5 "FIT" date]], []))
  /\ (forall name kolichestvo : pyval,
     Seller.create_prices
       [mkWatch (PyInt 101) name (PyStr "5990") kolichestvo] ["101"]
     = (OK [Seller.mkPrice "UNKNOWN" "RUB" "101" "0" "5990"], ["101"])
     /\ Market.create_prices
          [mkWatch (PyInt 101) name (PyStr "5990") kolichestvo] ["101"]
        = (OK [Market.mkPrice "101" (Market.mkValue 5990 "RUR")], ["101"])).
Proof.
  change (fun w => py_str (Kod w)) with code_of.
  split; [|split; [|split; [|split; [|split]]]].
  - intros stocks ids' H.
    apply seller_create_stocks_ok in H as [_ [recs [-> HF]]].
    rewrite map_app, map_map. simpl. rewrite map_id.
    now rewrite (Forall2_offer_ids _ _ HF).
  - intros stocks ids' H.
    apply market_create_stocks_ok in H as [_ [recs [-> HF]]].
    rewrite map_app, map_map. simpl. rewrite map_id.
    now rewrite (Forall2_market_skus _ _ _ _ HF).
  - intros prices ids' H.
    apply seller_prices_loop_ok in H as [recs [-> HF]].
    now apply Forall2_seller_price_ids.
  - intros prices ids' H.
    apply market_prices_loop_ok in H as [recs [-> HF]].
    now apply Forall2_market_price_ids.
  - intros name tsena. split; reflexivity.
  - intros name kolichestvo. split; reflexivity.
Qed.

Lemma code_compared_as_string_witness :
  map Seller.offer_id [Seller.mkStock "101" 100; Seller.mkStock "102" 0]
  = map (fun w => py_str (Kod w))
        (matched_rows
           [mkWatch (PyInt 101) (PyStr "Casio") (PyStr "5'990.00") (PyStr ">10")]
           ["101"; "102"]) ++ ["102"].
Proof.
  apply (proj1 (code_compared_as_string "W" "D"
           [mkWatch (PyInt 101) (PyStr "Casio") (PyStr "5'990.00") (PyStr ">10")]
           ["101"; "102"])
           [Seller.mkStock "101" 100; Seller.mkStock "102" 0] ["102"]).
  reflexivity.
Defined.

(** ** The offer-id fetchers *)

Section SellerFetch.

Variable responses : nat -> res Seller.product_page.
Variable k : nat.
Hypothesis more : forall i : nat, (i < k)%nat -> seller_more responses i.

Lemma seller_loop_cursor (fuel : nat) :
  forall (l1 l2 : string) (pl : list Seller.product) (c : nat),
  Seller.offer_ids_loop responses fuel l1 pl c
  = Seller.offer_ids_loop responses fuel l2 pl c.
Proof.
  destruct fuel; reflexivity.
Qed.

(** The loop walks to request [k] without returning. *)
Lemma seller_loop_advance (n : nat) :
  forall (c fuel : nat) (last_id : string),
  (c + n = k)%nat ->
  Seller.offer_ids_loop responses fuel last_id
    (seller_accumulated responses c) c
  = Seller.offer_ids_loop responses (fuel - n) EmptyString
      (seller_accumulated responses k) k.
Proof.
  induction n as [|n IH]; intros c fuel last_id Hc.
  - replace c with k by lia. rewrite Nat.sub_0_r. apply seller_loop_cursor.
  - destruct fuel as [|fuel]; [reflexivity|].
    destruct (more c) as [pg [Hpg Hne]]; [lia|].
    simpl Seller.offer_ids_loop at 1. unfold Seller.get_product_list.
    rewrite Hpg. simpl in Hne. rewrite Hpg in Hne. simpl in Hne.
    destruct (Z.eqb_spec (Seller.page_total pg)
                (Z.of_nat (List.length (seller_accumulated responses c ++
                                        Seller.page_items pg))));
      [contradiction|].
    replace (seller_accumulated responses c ++ Seller.page_items pg)
      with (seller_accumulated responses (S c))
      by (simpl; now rewrite Hpg).
    rewrite (IH (S c) fuel (Seller.page_last_id pg)) by lia.
    reflexivity.
Qed.

Lemma seller_loop_from_start (fuel : nat) :
  Seller.offer_ids_loop responses fuel EmptyString [] 0%nat
  = Seller.offer_ids_loop responses (fuel - k) EmptyString
      (seller_accumulated responses k) k.
Proof.
  apply (seller_loop_advance k 0%nat fuel EmptyString). lia.
Qed.

Lemma seller_fetch_returns (fuel : nat) :
  seller_last responses k -> (k < fuel)%nat ->
  Seller.get_offer_ids responses fuel
  = Some (OK (map Seller.product_offer_id (seller_accumulated responses (S k))),
          S k).
Proof.
  intros [pg [Hpg Htot]] Hfuel. unfold Seller.get_offer_ids.
  rewrite seller_loop_from_start.
  destruct (fuel - k)%nat as [|f] eqn:Ef; [lia|].
  simpl. unfold Seller.get_product_list. rewrite Hpg.
  simpl in Htot. rewrite Hpg in Htot. simpl in Htot.
  rewrite Htot, Z.eqb_refl. reflexivity.
Qed.

Lemma seller_fetch_raises (fuel : nat) (e : exn) :
  responses k = Raise e -> (k < fuel)%nat ->
  Seller.get_offer_ids responses fuel = Some (Raise e, S k).
Proof.
  intros He Hfuel. unfold Seller.get_offer_ids.
  rewrite seller_loop_from_start.
  destruct (fuel - k)%nat as [|f] eqn:Ef; [lia|].
  simpl. unfold Seller.get_product_list. now rewrite He.
Qed.

Lemma seller_fetch_pending (fuel : nat) :
  (fuel <= k)%nat -> Seller.get_offer_ids responses fuel = None.
Proof.
  intros Hfuel. unfold Seller.get_offer_ids.
  rewrite seller_loop_from_start.
  replace (fuel - k)%nat with 0%nat by lia. reflexivity.
Qed.

End SellerFetch.

Section MarketFetch.

Variable responses : nat -> res Market.mapping_page.
Variable k : nat.
Hypothesis more : forall i : nat, (i < k)%nat -> market_more responses i.

Lemma market_loop_cursor (fuel : nat) :
  forall (p1 p2 : option string) (pl : list Market.offer_mapping_entry)
         (c : nat),
  Market.offer_ids_loop responses fuel p1 pl c
  = Market.offer_ids_loop responses fuel p2 pl c.
Proof.
  destruct fuel; reflexivity.
Qed.

Lemma market_loop_advance (n : nat) :
  forall (c fuel : nat) (page : option string),
  (c + n = k)%nat ->
  Market.offer_ids_loop responses fuel page
    (market_accumulated responses c) c
  = Market.offer_ids_loop responses (fuel - n) (Some EmptyString)
      (market_accumulated responses k) k.
Proof.
  induction n as [|n IH]; intros c fuel page Hc.
  - replace c with k by lia. rewrite Nat.sub_0_r. apply market_loop_cursor.
  - destruct fuel as [|fuel]; [reflexivity|].
    destruct (more c) as [pg [ch [token [Hpg Htok]]]]; [lia|].
    simpl Market.offer_ids_loop at 1. unfold Market.get_product_list.
    rewrite Hpg, Htok. simpl negb.
    replace (market_accumulated responses c ++ Market.offerMappingEntries pg)
      with (market_accumulated responses (S c))
      by (simpl; now rewrite Hpg).
    rewrite (IH (S c) fuel (Some (String ch token))) by lia.
    reflexivity.
Qed.

Lemma market_loop_from_start (fuel : nat) :
  Market.offer_ids_loop responses fuel (Some EmptyString) [] 0%nat
  = Market.offer_ids_loop responses (fuel - k) (Some EmptyString)
      (market_accumulated responses k) k.
Proof.
  apply (market_loop_advance k 0%nat fuel (Some EmptyString)). lia.
Qed.

Lemma market_fetch_returns (fuel : nat) :
  market_last responses k -> (k < fuel)%nat ->
  Market.get_offer_ids responses fuel
  = Some (OK (map (fun product => Market.shopSku (Market.entry_offer product))
                  (market_accumulated responses (S k))),
          S k).
Proof.
  intros [pg [Hpg Htok]] Hfuel. unfold Market.get_offer_ids.
  rewrite market_loop_from_start.
  destruct (fuel - k)%nat as [|f] eqn:Ef; [lia|].
  simpl. unfold Market.get_product_list. rewrite Hpg.
  destruct Htok as [-> | ->]; reflexivity.
Qed.

Lemma market_fetch_raises (fuel : nat) (e : exn) :
  responses k = Raise e -> (k < fuel)%nat ->
  Market.get_offer_ids responses fuel = Some (Raise e, S k).
Proof.
  intros He Hfuel. unfold Market.get_offer_ids.
  rewrite market_loop_from_start.
  destruct (fuel - k)%nat as [|f] eqn:Ef; [lia|].
  simpl. unfold Market.get_product_list. now rewrite He.
Qed.

Lemma market_fetch_pending (fuel : nat) :
  (fuel <= k)%nat -> Market.get_offer_ids responses fuel = None.
Proof.
  intros Hfuel. unfold Market.get_offer_ids.
  rewrite market_loop_from_start.
  replace (fuel - k)%nat with 0%nat by lia. reflexivity.
Qed.

End MarketFetch.

(** C6. Whatever the listing endpoint answers: if the answers before
    number [k] are pages that announce more (a reported total other than
    the accumulated count for Ozon, a non-empty continuation token for
    Yandex Market), then the fetcher makes request [k], and
    - if answer [k] is a page that announces the end (total equal to the
      accumulated count; token absent or empty), the fetcher returns
      after that request, with the offer ids of all the items of the
      pages 0..k, in order;
    - if answer [k] is a transport error, the fetcher raises it after
      that request, and returns no ids;
    - the fetcher does not return before request [k]. *)
Theorem fetchers_stop_at_end_signal
    (sr : nat -> res Seller.product_page)
    (mr : nat -> res Market.mapping_page) (k : nat) :
  ((forall i : nat, (i < k)%nat -> seller_more sr i) ->
   (seller_last sr k ->
    forall fuel : nat, (k < fuel)%nat ->
    Seller.get_offer_ids sr fuel
    = Some (OK (map Seller.product_offer_id (seller_accumulated sr (S k))),
            S k))
   /\ (forall e : exn, sr k = Raise e ->
       forall fuel : nat, (k < fuel)%nat ->
       Seller.get_offer_ids sr fuel = Some (Raise e, S k))
   /\ (forall fuel : nat, (fuel <= k)%nat ->
       Seller.get_offer_ids sr fuel = None))
  /\
  ((forall i : nat, (i < k)%nat -> market_more mr i) ->
   (market_last mr k ->
    forall fuel : nat, (k < fuel)%nat ->
    Market.get_offer_ids mr fuel
    = Some (OK (map (fun product => Market.shopSku (Market.entry_offer product))
                    (market_accumulated mr (S k))),
            S k))
   /\ (forall e : exn, mr k = Raise e ->
       forall fuel : nat, (k < fuel)%nat ->
       Market.get_offer_ids mr fuel = Some (Raise e, S k))
   /\ (forall fuel : nat, (fuel <= k)%nat ->
       Market.get_offer_ids mr fuel = None)).
Proof.
  split; intros Hmore; (split; [|split]).
  - intros Hlast fuel Hfuel. now apply (seller_fetch_returns sr k Hmore).
  - intros e He fuel Hfuel. now apply (seller_fetch_raises sr k Hmore).
  - intros fuel Hfuel. now apply (seller_fetch_pending sr k Hmore).
  - intros Hlast fuel Hfuel. now apply (market_fetch_returns mr k Hmore).
  - intros e He fuel Hfuel. now apply (market_fetch_raises mr k Hmore).
  - intros fuel Hfuel. now apply (market_fetch_pending mr k Hmore).
Qed.

Lemma seller_two_pages_more :
  forall i : nat, (i < 1)%nat -> seller_more seller_two_pages i.
Proof.
  intros i Hi. replace i with 0%nat by lia.
  exists (Seller.mkPage [Seller.mkProduct "101"] 3 "101").
  split; [reflexivity|discriminate].
Qed.

Lemma market_second_fails_more :
  forall i : nat, (i < 1)%nat -> market_more market_second_fails i.
Proof.
  intros i Hi. replace i with 0%nat by lia.
  exists (Market.mkPage [Market.mkEntry (Market.mkOffer "101")] (Some "next")),
         "n"%char, "ext".
  split; reflexivity.
Qed.

Lemma fetchers_stop_at_end_signal_witness :
  Seller.get_offer_ids seller_two_pages 5
  = Some (OK ["101"; "102"; "103"], 2%nat)
  /\ Market.get_offer_ids market_second_fails 5
     = Some (Raise ConnectionError, 2%nat).
Proof.
  split.
  - apply (proj1 (proj1 (fetchers_stop_at_end_signal
                           seller_two_pages market_second_fails 1%nat)
                        seller_two_pages_more)).
    + exists (Seller.mkPage [Seller.mkProduct "102"; Seller.mkProduct "103"]
                            3 "103").
      split; reflexivity.
    + lia.
  - apply (proj1 (proj2 (proj2 (fetchers_stop_at_end_signal
                                  seller_two_pages market_second_fails 1%nat)
                               market_second_fails_more))).
    + reflexivity.
    + lia.
Defined.

(** ** The run of the Ozon adapter *)

Lemma known_rows_unmatched (rows : list watch) (ids : list string) :
  known_rows rows (unmatched_ids rows ids) = [].
Proof.
  unfold known_rows, unmatched_ids.
  assert (H : forall w : watch, In w rows ->
              mem (code_of w)
                  (filter (fun id => negb (mem id (map code_of rows))) ids)
              = false).
  { intros w Hw. rewrite mem_filter.
    assert (E : mem (code_of w) (map code_of rows) = true).
    { apply mem_In. now apply in_map. }
    rewrite E. apply andb_false_r. }
  revert H. generalize (filter (fun id => negb (mem id (map code_of rows))) ids).
  intros l H. induction rows as [|w rows IH]; [reflexivity|].
  simpl. rewrite (H w) by now left.
  apply IH. intros w' Hw'. apply H. now right.
Qed.

(** In [main] the price builder receives the list object the stock
    builder has emptied of every matched id: with no duplicate among the
    fetched ids, the price batch of a completed run is empty, whatever
    the inventory. *)
Lemma main_body_prices_empty
    (update_stocks : list Seller.stock_record -> res unit)
    (update_price : list Seller.price_record -> res unit)
    (rows : list watch) (ids ids' : list string)
    (stocks : list Seller.stock_record) (prices : list Seller.price_record) :
  NoDup ids ->
  Seller.main_body update_stocks update_price rows ids
  = (OK (stocks, prices), ids') ->
  prices = [].
Proof.
  intros Hnd. unfold Seller.main_body, bind, lift, ret.
  destruct (Seller.create_stocks rows ids) as [[s|e] ids1] eqn:E;
    [|discriminate].
  apply seller_create_stocks_ok in E as [-> _].
  rewrite remaining_ids_filter by assumption.
  destruct (divide s 100) as [sb|e]; [|discriminate].
  destruct (Seller.for_each update_stocks sb); [|discriminate].
  unfold Seller.create_prices.
  rewrite seller_prices_loop_skip by apply known_rows_unmatched.
  destruct (divide [] 900) as [pb|e]; [|discriminate].
  destruct (Seller.for_each update_price pb); [|discriminate].
  intros H. now injection H as _ <- _.
Qed.

(** C4 on the code.  With one known offer "101" and that watch in the
    feed, [main] fetches the id, builds the stock record, and then builds
    an empty price batch: [create_prices] is handed the list from which
    [create_stocks] has removed "101".  On the ids as fetched the price
    builder gives the record for "101", and so does [upload_prices],
    which fetches the ids anew. *)
Theorem main_price_batch_after_stocks :
  Seller.get_offer_ids one_offer_listing 1 = Some (OK ["101"], 1%nat)
  /\ Seller.main one_offer_listing (OK one_watch_feed)
       (fun _ => OK tt) (fun _ => OK tt) 1
     = Some (OK ([Seller.mkStock "101" 5], []))
  /\ known_rows one_watch_feed ["101"] = one_watch_feed
  /\ Seller.create_prices one_watch_feed ["101"]
     = (OK [Seller.mkPrice "UNKNOWN" "RUB" "101" "0" "5990"], ["101"])
  /\ Seller.upload_prices one_offer_listing (fun _ => OK tt) 1 one_watch_feed
     = Some (OK [Seller.mkPrice "UNKNOWN" "RUB" "101" "0" "5990"]).
Proof.
  repeat split.
Qed.

(** * Further properties *)

(** ** The batcher: number and position of the batches *)

Section DivideCount.

Context {A : Type}.
Variable lst : list A.
Variable n : Z.
Hypothesis n_pos : 0 < n.

Lemma slices_nth (fuel : nat) :
  forall i k : nat,
  (List.length lst - i <= fuel)%nat ->
  nth k (slices lst n fuel i) []
  = firstn (Z.to_nat n) (skipn (i + k * Z.to_nat n) lst).
Proof.
  induction fuel as [|fuel IH]; intros i k Hfuel.
  - rewrite slices_nil by lia. rewrite skipn_all2 by lia.
    rewrite firstn_nil. now destruct k.
  - destruct (Nat.le_gt_cases (List.length lst) i) as [Hout|Hin].
    + rewrite slices_nil by lia. rewrite skipn_all2 by lia.
      rewrite firstn_nil. now destruct k.
    + rewrite slices_cons by (trivial; lia).
      destruct k as [|k]; simpl nth.
      * do 2 f_equal. lia.
      * rewrite IH by lia. do 2 f_equal. lia.
Qed.

Lemma slices_count (fuel : nat) :
  forall i : nat,
  (i <= List.length lst)%nat -> (List.length lst - i <= fuel)%nat ->
  (List.length lst - i <= List.length (slices lst n fuel i) * Z.to_nat n
   < List.length lst - i + Z.to_nat n)%nat.
Proof.
  induction fuel as [|fuel IH]; intros i Hi Hfuel.
  - rewrite slices_nil by lia. simpl. lia.
  - destruct (Nat.eq_dec i (List.length lst)) as [->|Hne].
    + rewrite slices_nil by lia. simpl. lia.
    + rewrite slices_cons by (trivial; lia). simpl List.length.
      destruct (Nat.le_gt_cases (i + Z.to_nat n) (List.length lst))
        as [Hmore|Hlast].
      * specialize (IH (i + Z.to_nat n)%nat Hmore). lia.
      * rewrite slices_nil by lia. simpl. lia.
Qed.

End DivideCount.

(** X1. For a chunk size [n > 0], [divide] yields the ceiling of
    [len(lst) / n] batches, and batch number [k] is the [n] elements of
    [lst] from index [k * n] on (fewer at the end of the list). *)
Theorem divide_batch_count_and_position {A : Type} (lst : list A) (n : Z) :
  0 < n ->
  exists batches : list (list A),
    divide lst n = OK batches
    /\ Z.of_nat (List.length batches)
       = (Z.of_nat (List.length lst) + n - 1) / n
    /\ forall k : nat,
       (k < List.length batches)%nat ->
       nth k batches []
       = firstn (Z.to_nat n) (skipn (k * Z.to_nat n) lst).
Proof.
  intros Hn. exists (slices lst n (List.length lst) 0).
  split; [now apply divide_slices|]. split.
  - pose proof (slices_count lst n Hn (List.length lst) 0%nat) as H.
    specialize (H ltac:(lia) ltac:(lia)).
    remember (List.length (slices lst n (List.length lst) 0)) as L.
    assert (Hm : Z.of_nat (L * Z.to_nat n) = Z.of_nat L * n).
    { rewrite Nat2Z.inj_mul. f_equal. lia. }
    apply (Z.div_unique_pos _ _ _
             (Z.of_nat (List.length lst) + n - 1 - n * Z.of_nat L)); lia.
  - intros k _. rewrite slices_nth by (trivial; lia). reflexivity.
Qed.

Lemma divide_batch_count_and_position_witness :
  0 < 2 /\
  exists batches : list (list Z),
    divide [1; 2; 3; 4; 5] 2 = OK batches
    /\ Z.of_nat (List.length batches)
       = (Z.of_nat (List.length [1; 2; 3; 4; 5]) + 2 - 1) / 2
    /\ forall k : nat,
       (k < List.length batches)%nat ->
       nth k batches []
       = firstn (Z.to_nat 2) (skipn (k * Z.to_nat 2) [1; 2; 3; 4; 5]).
Proof.
  split; [lia|].
  apply (divide_batch_count_and_position [1; 2; 3; 4; 5] 2). lia.
Defined.

(** X2. With the chunk size 0 [divide] raises [ValueError] (the zero
    step of [range]); with a negative chunk size it yields no batch at
    all, whatever the list holds. *)
Theorem divide_without_positive_size {A : Type} (lst : list A) (n : Z) :
  (n = 0 -> divide lst n = Raise ValueError)
  /\ (n < 0 -> divide lst n = OK []).
Proof.
  unfold divide, py_range. split.
  - intros ->. reflexivity.
  - intros Hn.
    destruct (Z.eqb_spec n 0); [lia|].
    destruct (Z.ltb_spec n 0); [|lia].
    destruct (Z.ltb_spec (Z.of_nat (List.length lst)) 0); [lia|].
    reflexivity.
Qed.

Lemma divide_without_positive_size_witness :
  divide [1; 2; 3] 0 = Raise ValueError /\ divide [1; 2; 3] (-2) = OK [].
Proof.
  split.
  - apply (proj1 (divide_without_positive_size [1; 2; 3] 0)). reflexivity.
  - apply (proj2 (divide_without_positive_size [1; 2; 3] (-2))). lia.
Defined.

(** ** One write call per batch *)

(** X3. The loop over the batches succeeds exactly when every write call
    succeeds, and otherwise raises the exception of the first call that
    fails: the batches before it were written, those after it are not
    attempted. *)
Theorem for_each_first_failure {R : Type} (update : list R -> res unit)
    (batches : list (list R)) :
  (Seller.for_each update batches = OK tt <->
   Forall (fun b => update b = OK tt) batches)
  /\ (forall e : exn,
      Seller.for_each update batches = Raise e <->
      exists (pre : list (list R)) (b : list R) (post : list (list R)),
        batches = pre ++ b :: post
        /\ Forall (fun b' => update b' = OK tt) pre
        /\ update b = Raise e).
Proof.
  induction batches as [|b batches [IHok IHraise]]; simpl.
  - split; [split; [constructor|reflexivity]|].
    intros e. split; [discriminate|].
    intros [pre [b [post [H _]]]]. now destruct pre.
  - destruct (update b) as [[]|e0] eqn:Eb.
    + split.
      * rewrite IHok. split; [now constructor|].
        intros H. now inversion H.
      * intros e. rewrite IHraise. split.
        -- intros [pre [b' [post [-> [Hpre Hb']]]]].
           exists (b :: pre), b', post. repeat split; trivial.
           now constructor.
        -- intros [pre [b' [post [Heq [Hpre Hb']]]]].
           destruct pre as [|p pre]; simpl in Heq; injection Heq as <- ->.
           ++ congruence.
           ++ exists pre, b', post. repeat split; trivial. now inversion Hpre.
    + split.
      * split; [discriminate|]. intros H. inversion H. congruence.
      * intros e. split.
        -- intros H. injection H as <-. exists [], b, batches.
           repeat split; trivial.
        -- intros [pre [b' [post [Heq [Hpre Hb']]]]].
           destruct pre as [|p pre]; simpl in Heq; injection Heq as <- ->.
           ++ congruence.
           ++ inversion Hpre. congruence.
Qed.

Lemma for_each_first_failure_witness :
  Seller.for_each
    (fun b : list Z => match b with
                       | 2 :: _ => Raise ConnectionError
                       | _ => OK tt
                       end)
    [[1]; [2]; [3]] = Raise ConnectionError.
Proof.
  apply (proj2 (proj2 (for_each_first_failure
           (fun b : list Z => match b with
                              | 2 :: _ => Raise ConnectionError
                              | _ => OK tt
                              end)
           [[1]; [2]; [3]]) ConnectionError)).
  exists [[1]], [2], [[3]].
  split; [reflexivity|]. split; [|reflexivity].
  constructor; [reflexivity|constructor].
Defined.

(** ** Stock batches: size, success, failure *)

Lemma market_create_stocks_fst (wh date : string) (rows : list watch)
    (ids : list string) :
  fst (Market.create_stocks date rows wh ids)
  = res_map (map (to_market wh date)) (fst (Seller.create_stocks rows ids)).
Proof.
  now rewrite market_create_stocks_sim.
Qed.

(** X4. Whatever the known offer ids, duplicates included, the offer ids
    of a stock batch that [create_stocks] returns are the known ids
    rearranged: the batch has one record for each occurrence of an id.
    Both adapters. *)
Theorem stock_batch_covers_every_occurrence (wh date : string)
    (rows : list watch) (ids : list string) :
  (forall (stocks : list Seller.stock_record) (ids' : list string),
     Seller.create_stocks rows ids = (OK stocks, ids') ->
     Permutation (map Seller.offer_id stocks) ids
     /\ List.length stocks = List.length ids)
  /\ (forall (stocks : list Market.stock_record) (ids' : list string),
     Market.create_stocks date rows wh ids = (OK stocks, ids') ->
     Permutation (map Market.sku stocks) ids
     /\ List.length stocks = List.length ids).
Proof.
  split; intros stocks ids' H.
  - apply seller_create_stocks_ok in H as [-> [recs [-> HF]]].
    assert (HP : Permutation
                   (map Seller.offer_id
                      (recs ++ map (fun id => Seller.mkStock id 0)
                                   (remaining_ids rows ids))) ids).
    { rewrite map_app, map_map. simpl. rewrite map_id.
      rewrite (Forall2_offer_ids _ _ HF). apply matched_remaining_perm. }
    split; [exact HP|].
    apply Permutation_length in HP. now rewrite length_map in HP.
  - apply market_create_stocks_ok in H as [-> [recs [-> HF]]].
    assert (HP : Permutation
                   (map Market.sku
                      (recs ++
                       map (fun id =>
                              Market.mkStock id wh [Market.mkItem 0 "FIT" date])
                           (remaining_ids rows ids))) ids).
    { rewrite map_app, map_map. simpl. rewrite map_id.
      rewrite (Forall2_market_skus _ _ _ _ HF). apply matched_remaining_perm. }
    split; [exact HP|].
    apply Permutation_length in HP. now rewrite length_map in HP.
Qed.

Lemma stock_batch_covers_every_occurrence_witness :
  Permutation
    (map Seller.offer_id
       [Seller.mkStock "101" 5; Seller.mkStock "102" 0; Seller.mkStock "101" 0])
    ["101"; "102"; "101"]
  /\ List.length
       [Seller.mkStock "101" 5; Seller.mkStock "102" 0; Seller.mkStock "101" 0]
     = List.length ["101"; "102"; "101"].
Proof.
  apply (proj1 (stock_batch_covers_every_occurrence "W" "D"
           [mkWatch (PyStr "101") (PyStr "Casio") (PyStr "5'990.00") (PyStr "5")]
           ["101"; "102"; "101"])
           [Seller.mkStock "101" 5; Seller.mkStock "102" 0;
            Seller.mkStock "101" 0]
           ["102"; "101"]).
  reflexivity.
Defined.

Lemma seller_stocks_loop_succeeds (rows : list watch) :
  forall (stocks : list Seller.stock_record) (ids : list string),
  Forall quantity_resolves (matched_rows rows ids) ->
  exists (out : list Seller.stock_record) (ids' : list string),
    Seller.stocks_loop rows stocks ids = (OK out, ids').
Proof.
  induction rows as [|w rows IH]; intros stocks ids H.
  - now exists stocks, ids.
  - rewrite seller_stocks_loop_cons. simpl in H.
    destruct (mem (code_of w) ids); [|now apply IH].
    inversion H as [|w' ws [c Hc] Hrest]; subst.
    rewrite Hc. now apply IH.
Qed.

Lemma Forall2_resolves (ws : list watch) (recs : list Seller.stock_record) :
  Forall2 seller_stock_of ws recs -> Forall quantity_resolves ws.
Proof.
  induction 1 as [|w r ws recs [_ Hc] _ IH]; constructor; [|assumption].
  now exists (Seller.stock r).
Qed.

(** X5. [create_stocks] returns a batch exactly when the quantity of
    every matched row resolves to a count.  A row whose code is not in
    the working list when the loop reaches it is never looked at: its
    quantity, whatever it is, cannot make the builder fail.  Both
    adapters. *)
Theorem stock_batch_returned_iff_matched_resolve (wh date : string)
    (rows : list watch) (ids : list string) :
  ((exists (stocks : list Seller.stock_record) (ids' : list string),
      Seller.create_stocks rows ids = (OK stocks, ids'))
   <-> Forall quantity_resolves (matched_rows rows ids))
  /\ ((exists (stocks : list Market.stock_record) (ids' : list string),
      Market.create_stocks date rows wh ids = (OK stocks, ids'))
   <-> Forall quantity_resolves (matched_rows rows ids)).
Proof.
  assert (HS : (exists (stocks : list Seller.stock_record) (ids' : list string),
                  Seller.create_stocks rows ids = (OK stocks, ids'))
               <-> Forall quantity_resolves (matched_rows rows ids)).
  { split.
    - intros [stocks [ids' H]].
      apply seller_create_stocks_ok in H as [_ [recs [_ HF]]].
      now apply Forall2_resolves in HF.
    - intros H.
      destruct (seller_stocks_loop_succeeds rows [] ids H) as [out [ids' E]].
      unfold Seller.create_stocks, bind, contents, ret. rewrite E.
      now eexists _, _. }
  split; [exact HS|]. rewrite <- HS. split.
  - intros [stocks [ids' H]]. rewrite market_create_stocks_sim in H.
    destruct (Seller.create_stocks rows ids) as [[s|e] ids1]; simpl in H;
      [|discriminate].
    now exists s, ids1.
  - intros [stocks [ids' H]]. rewrite market_create_stocks_sim, H. simpl.
    now eexists _, _.
Qed.

Lemma stock_batch_returned_iff_matched_resolve_witness :
  exists (stocks : list Seller.stock_record) (ids' : list string),
    Seller.create_stocks
      [mkWatch (PyStr "101") (PyStr "Casio") (PyStr "5'990.00") (PyStr "5");
       mkWatch (PyStr "777") (PyStr "Casio") (PyStr "100") (PyStr "null")]
      ["101"] = (OK stocks, ids').
Proof.
  apply (proj2 (proj1 (stock_batch_returned_iff_matched_resolve "W" "D"
     [mkWatch (PyStr "101") (PyStr "Casio") (PyStr "5'990.00") (PyStr "5");
      mkWatch (PyStr "777") (PyStr "Casio") (PyStr "100") (PyStr "null")]
     ["101"]))).
  constructor; [|constructor]. exists 5. reflexivity.
Defined.

Lemma seller_stocks_loop_unknown (rows : list watch) (ids : list string) :
  forall stocks : list Seller.stock_record,
  (forall w : watch, In w rows -> mem (code_of w) ids = false) ->
  Seller.stocks_loop rows stocks ids = (OK stocks, ids).
Proof.
  induction rows as [|w rows IH]; intros stocks H; [reflexivity|].
  rewrite seller_stocks_loop_cons. rewrite (H w) by now left.
  apply IH. intros w' Hw'. apply H. now right.
Qed.

(** X6. When no inventory row has a known offer id as its code (an empty
    feed, an empty list of ids, or no overlap), [create_stocks] returns
    a zero-count record for every known id, in the order supplied, and
    leaves the list of ids as it was; no quantity is parsed, so it cannot
    fail.  Both adapters. *)
Theorem stock_batch_without_known_codes (wh date : string)
    (rows : list watch) (ids : list string) :
  (forall w : watch, In w rows -> mem (code_of w) ids = false) ->
  Seller.create_stocks rows ids
  = (OK (map (fun id => Seller.mkStock id 0) ids), ids)
  /\ Market.create_stocks date rows wh ids
     = (OK (map (fun id => Market.mkStock id wh [Market.mkItem 0 "FIT" date])
                ids), ids).
Proof.
  intros H.
  assert (HS : Seller.create_stocks rows ids
               = (OK (map (fun id => Seller.mkStock id 0) ids), ids)).
  { unfold Seller.create_stocks, bind, contents, ret.
    now rewrite seller_stocks_loop_unknown. }
  split; [exact HS|].
  rewrite market_create_stocks_sim, HS. simpl. now rewrite map_map.
Qed.

Lemma stock_batch_without_known_codes_witness :
  Seller.create_stocks
    [mkWatch (PyStr "777") (PyStr "Casio") (PyStr "100") (PyStr "null")]
    ["101"; "102"]
  = (OK (map (fun id => Seller.mkStock id 0) ["101"; "102"]), ["101"; "102"]).
Proof.
  refine (proj1 (stock_batch_without_known_codes "W" "D"
     [mkWatch (PyStr "777") (PyStr "Casio") (PyStr "100") (PyStr "null")]
     ["101"; "102"] _)).
  intros w [<-|[]]. reflexivity.
Defined.

Lemma stock_count_raises (v : pyval) (e : exn) :
  stock_count v = Raise e ->
  (e = ValueError /\ exists q : string, v = PyStr q /\ int_of_str q = None)
  \/ (e = TypeError /\ v = PyNone).
Proof.
  unfold stock_count. destruct v as [s|z|]; simpl.
  - destruct (String.eqb s ">10"); [discriminate|].
    destruct (String.eqb s "1"); [discriminate|].
    destruct (int_of_str s) eqn:E; [discriminate|].
    intros H. injection H as <-. left. split; [reflexivity|]. now exists s.
  - destruct (String.eqb _ ">10"); [discriminate|].
    destruct (String.eqb _ "1"); discriminate.
  - intros H. injection H as <-. now right.
Qed.

Lemma matched_rows_known (rows : list watch) :
  forall (ids : list string) (w : watch),
  In w (matched_rows rows ids) -> In w rows /\ In (code_of w) ids.
Proof.
  induction rows as [|r rows IH]; intros ids w H; [contradiction|].
  simpl in H. destruct (mem (code_of r) ids) eqn:E.
  - destruct H as [<-|H].
    + split; [now left|now apply mem_In].
    + apply IH in H as [Hin Hid]. split; [now right|].
      destruct (mem (code_of w) ids) eqn:Ew; [now apply mem_In|].
      rewrite remove_first_absent in Hid.
      * assumption.
      * exfalso. apply mem_not_In in Ew. apply Ew. clear -Hid.
        induction ids as [|y ids IHids]; [contradiction|].
        simpl in Hid. destruct (String.eqb (code_of r) y).
        -- now right.
        -- destruct Hid as [<-|Hid]; [now left|right; now apply IHids].
  - apply IH in H as [Hin Hid]. split; [now right|assumption].
Qed.

Lemma seller_stocks_loop_raises (rows : list watch) :
  forall (stocks : list Seller.stock_record) (ids : list string) (e : exn),
  fst (Seller.stocks_loop rows stocks ids) = Raise e ->
  exists w : watch,
    In w (matched_rows rows ids) /\ stock_count (Kolichestvo w) = Raise e.
Proof.
  induction rows as [|w rows IH]; intros stocks ids e; [discriminate|].
  rewrite seller_stocks_loop_cons. simpl.
  destruct (mem (code_of w) ids).
  - destruct (stock_count (Kolichestvo w)) as [c|e0] eqn:Ec.
    + intros H. apply IH in H as [w' [Hin Hw']]. exists w'. split; [now right|assumption].
    + simpl. intros H. injection H as <-. exists w. split; [now left|assumption].
  - apply IH.
Qed.

(** X7. When [create_stocks] raises, the exception comes from the
    quantity of an inventory row whose code is a known offer id, and it
    is either the [ValueError] of a quantity string that is not an
    integer literal, or the [TypeError] of a row without quantity.  Both
    adapters. *)
Theorem stock_batch_failure_cause (wh date : string) (rows : list watch)
    (ids : list string) (e : exn) :
  fst (Seller.create_stocks rows ids) = Raise e
  \/ fst (Market.create_stocks date rows wh ids) = Raise e ->
  exists w : watch,
    In w rows /\ In (code_of w) ids
    /\ ((e = ValueError
         /\ exists q : string, Kolichestvo w = PyStr q /\ int_of_str q = None)
        \/ (e = TypeError /\ Kolichestvo w = PyNone)).
Proof.
  intros H.
  assert (HS : fst (Seller.create_stocks rows ids) = Raise e).
  { destruct H as [H|H]; [assumption|].
    rewrite market_create_stocks_fst in H.
    destruct (fst (Seller.create_stocks rows ids)); [discriminate|].
    simpl in H. now injection H as ->. }
  assert (HL : fst (Seller.stocks_loop rows [] ids) = Raise e).
  { unfold Seller.create_stocks, bind, contents, ret in HS.
    destruct (Seller.stocks_loop rows [] ids) as [[out|e0] ids1];
      [discriminate|assumption]. }
  apply seller_stocks_loop_raises in HL as [w [Hin Hc]].
  apply matched_rows_known in Hin as [Hrow Hid].
  exists w. split; [assumption|]. split; [assumption|].
  now apply stock_count_raises.
Qed.

Lemma stock_batch_failure_cause_witness :
  exists w : watch,
    In w [mkWatch (PyStr "101") (PyStr "Casio") (PyStr "5'990.00") PyNone]
    /\ In (code_of w) ["101"]
    /\ ((TypeError = ValueError
         /\ exists q : string, Kolichestvo w = PyStr q /\ int_of_str q = None)
        \/ (TypeError = TypeError /\ Kolichestvo w = PyNone)).
Proof.
  apply (stock_batch_failure_cause "W" "D"
           [mkWatch (PyStr "101") (PyStr "Casio") (PyStr "5'990.00") PyNone]
           ["101"] TypeError).
  left. reflexivity.
Defined.

(** ** The records with stock left: [upload_stocks] *)

Lemma market_create_stocks_shaped (wh date : string) (rows : list watch)
    (ids ids' : list string) (stocks : list Market.stock_record) :
  Market.create_stocks date rows wh ids = (OK stocks, ids') ->
  Forall (market_stock_shape wh date) stocks.
Proof.
  rewrite market_create_stocks_sim.
  destruct (Seller.create_stocks rows ids) as [[s|e] ids1]; simpl;
    [|discriminate].
  intros H. injection H as <- _.
  apply Forall_forall. intros r Hr. apply in_map_iff in Hr as [x [<- _]].
  split; [reflexivity|]. now exists (Seller.stock x).
Qed.

Lemma for_each_all_ok {R : Type} (update : list R -> res unit)
    (batches : list (list R)) :
  Seller.for_each update batches = OK tt ->
  Forall (fun b => update b = OK tt) batches.
Proof.
  induction batches as [|b batches IH]; simpl; [constructor|].
  destruct (update b) as [[]|e] eqn:Eb; [|discriminate].
  intros H. constructor; [assumption|now apply IH].
Qed.

(** X8. Every record of a stock batch of the Yandex Market adapter carries
    the warehouse passed to [create_stocks] and exactly one item, of type
    "FIT", stamped with the one clock reading taken before the loop. *)
Theorem market_stock_records_shape (wh date : string) (rows : list watch)
    (ids ids' : list string) (stocks : list Market.stock_record) :
  Market.create_stocks date rows wh ids = (OK stocks, ids') ->
  Forall (market_stock_shape wh date) stocks.
Proof.
  apply market_create_stocks_shaped.
Qed.

Lemma market_stock_records_shape_witness :
  Forall (market_stock_shape "W" "D")
    [Market.mkStock "101" "W" [Market.mkItem 5 "FIT" "D"];
     Market.mkStock "102" "W" [Market.mkItem 0 "FIT" "D"]].
Proof.
  apply (market_stock_records_shape "W" "D"
           [mkWatch (PyStr "101") (PyStr "Casio") (PyStr "5'990.00") (PyStr "5")]
           ["101"; "102"] ["102"]).
  reflexivity.
Defined.

Lemma not_empty_of_shaped (wh date : string)
    (stocks : list Market.stock_record) :
  Forall (market_stock_shape wh date) stocks ->
  Market.not_empty_of stocks
  = Some (filter (fun r => negb (first_count r =? 0)) stocks).
Proof.
  induction 1 as [|r stocks [_ [c Hc]] _ IH]; [reflexivity|].
  simpl. unfold first_count. rewrite Hc, IH. simpl.
  now destruct (c =? 0).
Qed.

Lemma seller_nonzero_from_rows (rows : list watch) (ids ids' : list string)
    (stocks : list Seller.stock_record) (r : Seller.stock_record) :
  Seller.create_stocks rows ids = (OK stocks, ids') ->
  In r stocks -> Seller.stock r <> 0 ->
  exists w : watch,
    In w rows /\ Seller.offer_id r = code_of w
    /\ stock_count (Kolichestvo w) = OK (Seller.stock r).
Proof.
  intros H Hr Hnz.
  apply seller_create_stocks_ok in H as [_ [recs [-> HF]]].
  apply in_app_or in Hr as [Hr|Hr].
  - clear -HF Hr.
    assert (Hex : exists w, In w (matched_rows rows ids) /\ seller_stock_of w r).
    { induction HF as [|w r' ws recs Hwr _ IH]; [contradiction|].
      destruct Hr as [<-|Hr].
      - exists w. split; [now left|assumption].
      - destruct (IH Hr) as [w' [Hin Hw']]. exists w'. split; [now right|assumption]. }
    destruct Hex as [w [Hin [Hid Hc]]].
    apply matched_rows_known in Hin as [Hrow _]. now exists w.
  - apply in_map_iff in Hr as [id [<- _]]. now contradiction Hnz.
Qed.

(** X11. When [upload_stocks] of the Ozon adapter returns, its second
    component is the stock batch built over the freshly fetched ids, every
    part of 100 records of it was accepted by the write endpoint, and its
    first component is the records of the batch with a count other than
    zero, in order.  Each of those comes from an inventory row: its offer
    id is the row's code and its count the row's resolved quantity; no
    record defaulted for an offer missing from the feed is among them. *)
Theorem seller_upload_stocks_result
    (responses : nat -> res Seller.product_page)
    (update_stocks : list Seller.stock_record -> res unit)
    (fuel : nat) (rows : list watch)
    (not_empty stocks : list Seller.stock_record) :
  Seller.upload_stocks responses update_stocks fuel rows
  = Some (OK (not_empty, stocks)) ->
  exists (ids : list string) (calls : nat) (batches : list (list Seller.stock_record)),
    Seller.get_offer_ids responses fuel = Some (OK ids, calls)
    /\ fst (Seller.create_stocks rows ids) = OK stocks
    /\ divide stocks 100 = OK batches
    /\ Forall (fun b => update_stocks b = OK tt) batches
    /\ not_empty = filter (fun s => negb (Seller.stock s =? 0)) stocks
    /\ forall r : Seller.stock_record,
       In r not_empty ->
       exists w : watch,
         In w rows /\ Seller.offer_id r = code_of w
         /\ stock_count (Kolichestvo w) = OK (Seller.stock r)
         /\ Seller.stock r <> 0.
Proof.
  unfold Seller.upload_stocks.
  destruct (Seller.get_offer_ids responses fuel) as [[[ids|e] calls]|] eqn:Ef;
    try discriminate.
  unfold bind, lift, ret.
  destruct (Seller.create_stocks rows ids) as [[s|e] ids1] eqn:Ec;
    [|discriminate].
  destruct (divide s 100) as [batches|e] eqn:Ed; [|discriminate].
  destruct (Seller.for_each update_stocks batches) as [[]|e] eqn:Eu;
    [|discriminate].
  simpl. intros H. injection H as <- <-.
  exists ids, calls, batches.
  split; [reflexivity|]. split; [now rewrite Ec|]. split; [exact Ed|].
  split; [now apply for_each_all_ok|]. split; [reflexivity|].
  intros r Hr. apply filter_In in Hr as [Hin Hnz].
  assert (Hne : Seller.stock r <> 0).
  { intros E. rewrite E in Hnz. discriminate Hnz. }
  destruct (seller_nonzero_from_rows rows ids ids1 s r Ec Hin Hne)
    as [w [Hw [Hid Hc]]].
  now exists w.
Qed.

Lemma seller_upload_stocks_result_witness :
  exists (ids : list string) (calls : nat)
         (batches : list (list Seller.stock_record)),
    Seller.get_offer_ids one_offer_listing 1 = Some (OK ids, calls)
    /\ fst (Seller.create_stocks one_watch_feed ids)
       = OK [Seller.mkStock "101" 5]
    /\ divide [Seller.mkStock "101" 5] 100 = OK batches
    /\ Forall (fun b => (fun _ : list Seller.stock_record => OK tt) b = OK tt)
              batches
    /\ [Seller.mkStock "101" 5]
       = filter (fun s => negb (Seller.stock s =? 0)) [Seller.mkStock "101" 5]
    /\ forall r : Seller.stock_record,
       In r [Seller.mkStock "101" 5] ->
       exists w : watch,
         In w one_watch_feed /\ Seller.offer_id r = code_of w
         /\ stock_count (Kolichestvo w) = OK (Seller.stock r)
         /\ Seller.stock r <> 0.
Proof.
  apply (seller_upload_stocks_result one_offer_listing (fun _ => OK tt) 1
           one_watch_feed [Seller.mkStock "101" 5] [Seller.mkStock "101" 5]).
  reflexivity.
Defined.

(** X12. [upload_stocks] of the Yandex Market adapter never fails on
    [items[0]]: every record [create_stocks] builds has an item.  When it
    returns, its second component is the stock batch built over the
    freshly fetched ids and its first component the records of the batch
    whose item has a count other than zero, in order; each of those has
    the code of an inventory row as its sku. *)
Theorem market_upload_stocks_result
    (responses : nat -> res Market.mapping_page)
    (update_stocks : list Market.stock_record -> res unit)
    (date : string) (fuel : nat) (rows : list watch) (wh : string) :
  Market.upload_stocks responses update_stocks date fuel rows wh
  <> Some (Market.Raised Market.IndexError)
  /\ forall not_empty stocks : list Market.stock_record,
     Market.upload_stocks responses update_stocks date fuel rows wh
     = Some (Market.Returned not_empty stocks) ->
     exists (ids : list string) (calls : nat),
       Market.get_offer_ids responses fuel = Some (OK ids, calls)
       /\ fst (Market.create_stocks date rows wh ids) = OK stocks
       /\ not_empty = filter (fun r => negb (first_count r =? 0)) stocks
       /\ forall r : Market.stock_record,
          In r not_empty ->
          exists w : watch,
            In w rows /\ Market.sku r = code_of w /\ first_count r <> 0.
Proof.
  unfold Market.upload_stocks.
  destruct (Market.get_offer_ids responses fuel) as [[[ids|e] calls]|] eqn:Ef;
    try (split; [discriminate|intros ? ?; discriminate]).
  unfold bind, lift, ret.
  destruct (Market.create_stocks date rows wh ids) as [[s|e] ids1] eqn:Ec;
    [|split; [discriminate|intros ? ?; discriminate]].
  destruct (divide s 2000) as [batches|e];
    [|split; [discriminate|intros ? ?; discriminate]].
  destruct (Seller.for_each update_stocks batches) as [[]|e];
    [|split; [discriminate|intros ? ?; discriminate]].
  rewrite (not_empty_of_shaped wh date s)
    by (eapply market_create_stocks_shaped; exact Ec).
  split; [discriminate|].
  intros not_empty stocks H. injection H as <- <-.
  exists ids, calls.
  split; [reflexivity|]. split; [now rewrite Ec|]. split; [reflexivity|].
  intros r Hr. apply filter_In in Hr as [Hin Hnz].
  assert (Hne : first_count r <> 0).
  { intros E. rewrite E in Hnz. discriminate Hnz. }
  rewrite market_create_stocks_sim in Ec.
  destruct (Seller.create_stocks rows ids) as [[ss|e] ids2] eqn:Es;
    simpl in Ec; [|discriminate].
  injection Ec as <- _.
  apply in_map_iff in Hin as [x [<- Hx]].
  destruct (seller_nonzero_from_rows rows ids ids2 ss x Es Hx Hne)
    as [w [Hw [Hid _]]].
  exists w. split; [assumption|]. split; [exact Hid|exact Hne].
Qed.

Lemma market_upload_stocks_result_witness :
  exists (ids : list string) (calls : nat),
    Market.get_offer_ids
      (fun _ => OK (Market.mkPage [Market.mkEntry (Market.mkOffer "101");
                                   Market.mkEntry (Market.mkOffer "102")] None))
      1
    = Some (OK ids, calls)
    /\ fst (Market.create_stocks "D" one_watch_feed "W" ids)
       = OK [Market.mkStock "101" "W" [Market.mkItem 5 "FIT" "D"];
             Market.mkStock "102" "W" [Market.mkItem 0 "FIT" "D"]]
    /\ [Market.mkStock "101" "W" [Market.mkItem 5 "FIT" "D"]]
       = filter (fun r => negb (first_count r =? 0))
           [Market.mkStock "101" "W" [Market.mkItem 5 "FIT" "D"];
            Market.mkStock "102" "W" [Market.mkItem 0 "FIT" "D"]]
    /\ forall r : Market.stock_record,
       In r [Market.mkStock "101" "W" [Market.mkItem 5 "FIT" "D"]] ->
       exists w : watch,
         In w one_watch_feed /\ Market.sku r = code_of w /\ first_count r <> 0.
Proof.
  apply (proj2 (market_upload_stocks_result
           (fun _ => OK (Market.mkPage [Market.mkEntry (Market.mkOffer "101");
                                        Market.mkEntry (Market.mkOffer "102")]
                                       None))
           (fun _ => OK tt) "D" 1 one_watch_feed "W")
           [Market.mkStock "101" "W" [Market.mkItem 5 "FIT" "D"]]
           [Market.mkStock "101" "W" [Market.mkItem 5 "FIT" "D"];
            Market.mkStock "102" "W" [Market.mkItem 0 "FIT" "D"]]).
  reflexivity.
Defined.

(** ** Price batches: success, failure, agreement of the adapters *)

Lemma digits_only_some (s : string) :
  has_digit s = true -> digits_only s <> EmptyString.
Proof.
  induction s as [|c s IH]; simpl; [discriminate|].
  destruct (is_digit c); simpl; [discriminate|assumption].
Qed.

Lemma normalized_numeric (s : string) :
  has_digit (before_first_dot s) = true <->
  exists v : Z, int_of_str (price_conversion_str s) = Some v.
Proof.
  split.
  - intros H. exists (decimal_value 0 (price_conversion_str s)).
    apply int_of_str_digits; [apply price_conversion_digits_only|].
    rewrite price_conversion_str_spec. now apply digits_only_some.
  - intros [v Hv].
    destruct (has_digit (before_first_dot s)) eqn:E; [reflexivity|].
    rewrite price_conversion_str_spec in Hv. unfold spec_price_normalize in Hv.
    rewrite digits_only_none in Hv by assumption. discriminate Hv.
Qed.

Lemma digit_val_nonneg (c : ascii) : is_digit c = true -> 0 <= digit_val c.
Proof.
  unfold is_digit, digit_val. intros H.
  apply andb_prop in H as [H _]. apply Nat.leb_le in H. lia.
Qed.

Lemma decimal_value_nonneg (s : string) :
  forall acc : Z,
  all_digits s = true -> 0 <= acc -> 0 <= decimal_value acc s.
Proof.
  induction s as [|c s IH]; intros acc H Hacc; cbn [decimal_value];
    [assumption|].
  simpl in H. apply andb_prop in H as [Hc Hs].
  apply IH; [assumption|]. pose proof (digit_val_nonneg c Hc). lia.
Qed.

Lemma seller_prices_loop_succeeds (rows : list watch) (ids : list string) :
  forall prices : list Seller.price_record,
  Forall price_is_string (known_rows rows ids) ->
  exists out : list Seller.price_record,
    Seller.prices_loop rows prices ids = (OK out, ids).
Proof.
  unfold known_rows.
  induction rows as [|w rows IH]; intros prices H.
  - now exists prices.
  - rewrite seller_prices_loop_cons. simpl in H.
    destruct (mem (code_of w) ids); [|now apply IH].
    inversion H as [|w' ws [s Hs] Hrest]; subst.
    rewrite Hs. simpl. now apply IH.
Qed.

Lemma market_prices_loop_succeeds (rows : list watch) (ids : list string) :
  forall prices : list Market.price_record,
  Forall price_has_digits (known_rows rows ids) ->
  exists out : list Market.price_record,
    Market.prices_loop rows prices ids = (OK out, ids).
Proof.
  unfold known_rows.
  induction rows as [|w rows IH]; intros prices H.
  - now exists prices.
  - rewrite market_prices_loop_cons. simpl in H.
    destruct (mem (code_of w) ids); [|now apply IH].
    inversion H as [|w' ws [s [Hs Hd]] Hrest]; subst.
    rewrite Hs. simpl.
    apply normalized_numeric in Hd as [v Hv]. rewrite Hv. now apply IH.
Qed.

Lemma Forall2_price_is_string (ws : list watch)
    (recs : list Seller.price_record) :
  Forall2 seller_price_of ws recs -> Forall price_is_string ws.
Proof.
  induction 1 as [|w r ws recs [p [Hp _]] _ IH]; constructor; [|assumption].
  destruct (Tsena w) as [s| |] eqn:E; try discriminate Hp. now exists s.
Qed.

Lemma Forall2_price_has_digits (ws : list watch)
    (recs : list Market.price_record) :
  Forall2 market_price_of ws recs -> Forall price_has_digits ws.
Proof.
  induction 1 as [|w r ws recs [p [v [Hp [Hv _]]]] _ IH]; constructor;
    [|assumption].
  destruct (Tsena w) as [s| |] eqn:E; try discriminate Hp.
  exists s. split; [exact E|].
  simpl in Hp. injection Hp as <-.
  apply normalized_numeric. now exists v.
Qed.

(** X10. The price builder of the Ozon adapter returns a batch exactly
    when the price of every row with a known code is a string; that of the
    Yandex Market adapter exactly when each such price is a string with a
    digit before its first ".".  The price of a row whose code is not a
    known offer id is never looked at. *)
Theorem price_batch_returned_iff (rows : list watch) (ids : list string) :
  ((exists (prices : list Seller.price_record) (ids' : list string),
      Seller.create_prices rows ids = (OK prices, ids'))
   <-> Forall price_is_string (known_rows rows ids))
  /\ ((exists (prices : list Market.price_record) (ids' : list string),
      Market.create_prices rows ids = (OK prices, ids'))
   <-> Forall price_has_digits (known_rows rows ids)).
Proof.
  split; split.
  - intros [prices [ids' H]].
    apply seller_prices_loop_ok in H as [recs [_ HF]].
    now apply Forall2_price_is_string in HF.
  - intros H.
    destruct (seller_prices_loop_succeeds rows ids [] H) as [out E].
    now exists out, ids.
  - intros [prices [ids' H]].
    apply market_prices_loop_ok in H as [recs [_ HF]].
    now apply Forall2_price_has_digits in HF.
  - intros H.
    destruct (market_prices_loop_succeeds rows ids [] H) as [out E].
    now exists out, ids.
Qed.

Lemma price_batch_returned_iff_witness :
  exists (prices : list Market.price_record) (ids' : list string),
    Market.create_prices
      [mkWatch (PyStr "101") (PyStr "Casio") (PyStr "5'990.00") (PyStr "5");
       mkWatch (PyStr "777") (PyStr "Casio") (PyStr "no price") (PyStr "1")]
      ["101"] = (OK prices, ids').
Proof.
  apply (proj2 (proj2 (price_batch_returned_iff
     [mkWatch (PyStr "101") (PyStr "Casio") (PyStr "5'990.00") (PyStr "5");
      mkWatch (PyStr "777") (PyStr "Casio") (PyStr "no price") (PyStr "1")]
     ["101"]))).
  constructor; [|constructor]. exists "5'990.00". split; reflexivity.
Defined.

Lemma market_prices_loop_raises (rows : list watch) (ids : list string) :
  forall (prices : list Market.price_record) (e : exn),
  fst (Market.prices_loop rows prices ids) = Raise e ->
  exists w : watch,
    In w (known_rows rows ids)
    /\ ((e = AttributeError /\ ~ price_is_string w)
        \/ (e = ValueError
            /\ exists s : string,
                 Tsena w = PyStr s
                 /\ has_digit (before_first_dot s) = false)).
Proof.
  unfold known_rows.
  induction rows as [|w rows IH]; intros prices e; [discriminate|].
  rewrite market_prices_loop_cons. simpl.
  destruct (mem (code_of w) ids); [|apply IH].
  destruct (Tsena w) as [s| |] eqn:Es; simpl.
  - destruct (int_of_str (price_conversion_str s)) as [v|] eqn:Ev.
    + intros H. apply IH in H as [w' [Hin Hw']]. exists w'.
      split; [now right|assumption].
    + simpl. intros H. injection H as <-. exists w. split; [now left|].
      right. split; [reflexivity|]. exists s. split; [assumption|].
      destruct (has_digit (before_first_dot s)) eqn:Ed; [|reflexivity].
      apply normalized_numeric in Ed as [v Hv]. congruence.
  - intros H. injection H as <-. exists w. split; [now left|].
    left. split; [reflexivity|]. intros [s Hs]. congruence.
  - intros H. injection H as <-. exists w. split; [now left|].
    left. split; [reflexivity|]. intros [s Hs]. congruence.
Qed.

Lemma seller_prices_loop_raises_row (rows : list watch) (ids : list string) :
  forall (prices : list Seller.price_record) (e : exn),
  fst (Seller.prices_loop rows prices ids) = Raise e ->
  e = AttributeError
  /\ exists w : watch, In w (known_rows rows ids) /\ ~ price_is_string w.
Proof.
  unfold known_rows.
  induction rows as [|w rows IH]; intros prices e; [discriminate|].
  rewrite seller_prices_loop_cons. simpl.
  destruct (mem (code_of w) ids); [|apply IH].
  destruct (Tsena w) as [s| |] eqn:Es; simpl.
  - intros H. apply IH in H as [-> [w' [Hin Hw']]]. split; [reflexivity|].
    exists w'. split; [now right|assumption].
  - intros H. injection H as <-. split; [reflexivity|]. exists w.
    split; [now left|]. intros [s Hs]. congruence.
  - intros H. injection H as <-. split; [reflexivity|]. exists w.
    split; [now left|]. intros [s Hs]. congruence.
Qed.

(** X16. When a price builder raises, a row with a known code is the
    cause.  In the Ozon adapter the exception is always the
    [AttributeError] of a price that is not a string (a row without
    price).  In the Yandex Market adapter it is that, or the [ValueError]
    of a string price with no digit before its first ".". *)
Theorem price_batch_failure_cause (rows : list watch) (ids : list string)
    (e : exn) :
  (fst (Seller.create_prices rows ids) = Raise e ->
   e = AttributeError
   /\ exists w : watch,
        In w rows /\ mem (code_of w) ids = true /\ ~ price_is_string w)
  /\ (fst (Market.create_prices rows ids) = Raise e ->
      exists w : watch,
        In w rows /\ mem (code_of w) ids = true
        /\ ((e = AttributeError /\ ~ price_is_string w)
            \/ (e = ValueError
                /\ exists s : string,
                     Tsena w = PyStr s
                     /\ has_digit (before_first_dot s) = false))).
Proof.
  split; intros H.
  - apply seller_prices_loop_raises_row in H as [-> [w [Hin Hw]]].
    split; [reflexivity|]. exists w.
    apply filter_In in Hin as [Hrow Hid]. now repeat split.
  - apply market_prices_loop_raises in H as [w [Hin Hw]].
    exists w. apply filter_In in Hin as [Hrow Hid]. now repeat split.
Qed.

Lemma price_batch_failure_cause_witness :
  exists w : watch,
    In w [mkWatch (PyStr "101") (PyStr "Casio") (PyStr "price") (PyStr "5")]
    /\ mem (code_of w) ["101"] = true
    /\ ((ValueError = AttributeError /\ ~ price_is_string w)
        \/ (ValueError = ValueError
            /\ exists s : string,
                 Tsena w = PyStr s
                 /\ has_digit (before_first_dot s) = false)).
Proof.
  apply (proj2 (price_batch_failure_cause
           [mkWatch (PyStr "101") (PyStr "Casio") (PyStr "price") (PyStr "5")]
           ["101"] ValueError)).
  reflexivity.
Defined.

Lemma prices_loops_agree (rows : list watch) (ids : list string) :
  forall (mp0 mout : list Market.price_record) (ids' : list string),
  Market.prices_loop rows mp0 ids = (OK mout, ids') ->
  exists (srecs : list Seller.price_record) (mrecs : list Market.price_record),
    mout = mp0 ++ mrecs
    /\ Forall2 same_price srecs mrecs
    /\ forall sp0 : list Seller.price_record,
       Seller.prices_loop rows sp0 ids = (OK (sp0 ++ srecs), ids).
Proof.
  induction rows as [|w rows IH]; intros mp0 mout ids' H.
  - injection H as <- _. exists [], [].
    split; [now rewrite app_nil_r|]. split; [constructor|].
    intros sp0. now rewrite app_nil_r.
  - rewrite market_prices_loop_cons in H.
    destruct (mem (code_of w) ids) eqn:Em.
    + destruct (Tsena w) as [s| |] eqn:Es; try discriminate H.
      simpl in H.
      destruct (int_of_str (price_conversion_str s)) as [v|] eqn:Ev;
        [|discriminate H].
      apply IH in H as [srecs [mrecs [-> [HF HS]]]].
      assert (Hd : all_digits (price_conversion_str s) = true)
        by apply price_conversion_digits_only.
      assert (Hne : price_conversion_str s <> EmptyString).
      { intros E. rewrite E in Ev. discriminate Ev. }
      assert (Hv : v = decimal_value 0 (price_conversion_str s)).
      { rewrite int_of_str_digits in Ev by assumption. now injection Ev. }
      exists (Seller.mkPrice "UNKNOWN" "RUB" (code_of w) "0"
                             (price_conversion_str s) :: srecs),
             (Market.mkPrice (code_of w) (Market.mkValue v "RUR") :: mrecs).
      split; [now rewrite <- app_assoc|]. split.
      * constructor; [|assumption]. unfold same_price. simpl.
        repeat split; try assumption.
        rewrite Hv. now apply decimal_value_nonneg.
      * intros sp0. rewrite seller_prices_loop_cons, Em, Es. simpl.
        rewrite HS. now rewrite <- app_assoc.
    + apply IH in H as [srecs [mrecs [-> [HF HS]]]].
      exists srecs, mrecs. split; [reflexivity|]. split; [assumption|].
      intros sp0. rewrite seller_prices_loop_cons, Em. apply HS.
Qed.

(** X9. Whenever the price builder of the Yandex Market adapter returns a
    batch, that of the Ozon adapter returns one too on the same input,
    with the same offers in the same order; each Ozon price is a
    non-empty string of digits and the Yandex Market value is the integer
    it denotes, never negative, in currency "RUR". *)
Theorem price_batches_agree (rows : list watch) (ids ids' : list string)
    (mprices : list Market.price_record) :
  Market.create_prices rows ids = (OK mprices, ids') ->
  exists sprices : list Seller.price_record,
    Seller.create_prices rows ids = (OK sprices, ids)
    /\ Forall2 same_price sprices mprices.
Proof.
  intros H. apply prices_loops_agree in H as [srecs [mrecs [-> [HF HS]]]].
  exists srecs. split; [apply (HS [])|assumption].
Qed.

Lemma price_batches_agree_witness :
  exists sprices : list Seller.price_record,
    Seller.create_prices
      [mkWatch (PyStr "101") (PyStr "Casio") (PyStr "-5'990.00") (PyStr "5")]
      ["101"] = (OK sprices, ["101"])
    /\ Forall2 same_price sprices
         [Market.mkPrice "101" (Market.mkValue 5990 "RUR")].
Proof.
  apply (price_batches_agree
           [mkWatch (PyStr "101") (PyStr "Casio") (PyStr "-5'990.00") (PyStr "5")]
           ["101"] ["101"]
           [Market.mkPrice "101" (Market.mkValue 5990 "RUR")]).
  reflexivity.
Defined.

(** ** What a fetcher that has stopped has seen *)

Section SellerFetchSound.

Variable responses : nat -> res Seller.product_page.

Lemma seller_loop_stopped (fuel : nat) :
  forall (c : nat) (last_id : string) (r : res (list Seller.product))
         (n : nat),
  (forall i : nat, (i < c)%nat -> seller_more responses i) ->
  Seller.offer_ids_loop responses fuel last_id
    (seller_accumulated responses c) c = Some (r, n) ->
  exists k : nat,
    n = S k
    /\ (forall i : nat, (i < k)%nat -> seller_more responses i)
    /\ ((seller_last responses k
         /\ r = OK (seller_accumulated responses (S k)))
        \/ (exists e : exn, responses k = Raise e /\ r = Raise e)).
Proof.
  induction fuel as [|fuel IH]; intros c last_id r n Hmore H; [discriminate|].
  simpl in H. unfold Seller.get_product_list in H.
  destruct (responses c) as [pg|e] eqn:Ec.
  - assert (Eacc : seller_accumulated responses c ++ Seller.page_items pg
                   = seller_accumulated responses (S c))
      by (simpl; now rewrite Ec).
    rewrite Eacc in H.
    destruct (Z.eqb_spec (Seller.page_total pg)
                (Z.of_nat (List.length (seller_accumulated responses (S c)))))
      as [Heq|Hne].
    + injection H as <- <-. exists c. split; [reflexivity|].
      split; [assumption|]. left. split; [|reflexivity]. now exists pg.
    + apply IH in H; [exact H|].
      intros i Hi. destruct (Nat.eq_dec i c) as [->|Hic].
      * now exists pg.
      * apply Hmore. lia.
  - injection H as <- <-. exists c. split; [reflexivity|].
    split; [assumption|]. right. now exists e.
Qed.

End SellerFetchSound.

Section MarketFetchSound.

Variable responses : nat -> res Market.mapping_page.

Lemma market_loop_stopped (fuel : nat) :
  forall (c : nat) (page : option string)
         (r : res (list Market.offer_mapping_entry)) (n : nat),
  (forall i : nat, (i < c)%nat -> market_more responses i) ->
  Market.offer_ids_loop responses fuel page
    (market_accumulated responses c) c = Some (r, n) ->
  exists k : nat,
    n = S k
    /\ (forall i : nat, (i < k)%nat -> market_more responses i)
    /\ ((market_last responses k
         /\ r = OK (market_accumulated responses (S k)))
        \/ (exists e : exn, responses k = Raise e /\ r = Raise e)).
Proof.
  induction fuel as [|fuel IH]; intros c page r n Hmore H; [discriminate|].
  simpl in H. unfold Market.get_product_list in H.
  destruct (responses c) as [pg|e] eqn:Ec.
  - assert (Eacc : market_accumulated responses c ++
                   Market.offerMappingEntries pg
                   = market_accumulated responses (S c))
      by (simpl; now rewrite Ec).
    rewrite Eacc in H.
    destruct (Market.nextPageToken pg) as [[|ch token]|] eqn:Et; simpl in H.
    + injection H as <- <-. exists c. split; [reflexivity|].
      split; [assumption|]. left. split; [|reflexivity].
      exists pg. split; [assumption|now right].
    + change (market_accumulated responses c ++ market_items (responses c))
        with (market_accumulated responses (S c)) in H.
      apply IH in H; [exact H|].
      intros i Hi. destruct (Nat.eq_dec i c) as [->|Hic].
      * now exists pg, ch, token.
      * apply Hmore. lia.
    + injection H as <- <-. exists c. split; [reflexivity|].
      split; [assumption|]. left. split; [|reflexivity].
      exists pg. split; [assumption|now left].
  - injection H as <- <-. exists c. split; [reflexivity|].
    split; [assumption|]. right. now exists e.
Qed.

End MarketFetchSound.

(** X13. Whatever a fetcher gives was produced at an end signal or at a
    failed request.  If [get_offer_ids] returns ids after [n] requests,
    the answers before the last were pages announcing more, the last
    announced the end, and the ids are those of all the items of these
    [n] pages, in order; for Ozon their number is the total the last page
    reports.  If it raises, the exception is the one of the last request,
    and every page before it had announced more.  Both adapters. *)
Theorem fetchers_results_sound
    (sr : nat -> res Seller.product_page)
    (mr : nat -> res Market.mapping_page) (fuel n : nat) :
  (forall ids : list string,
     Seller.get_offer_ids sr fuel = Some (OK ids, n) ->
     exists k : nat,
       n = S k
       /\ (forall i : nat, (i < k)%nat -> seller_more sr i)
       /\ ids = map Seller.product_offer_id (seller_accumulated sr (S k))
       /\ exists pg : Seller.product_page,
            sr k = OK pg
            /\ Seller.page_total pg = Z.of_nat (List.length ids))
  /\ (forall e : exn,
     Seller.get_offer_ids sr fuel = Some (Raise e, n) ->
     exists k : nat,
       n = S k
       /\ (forall i : nat, (i < k)%nat -> seller_more sr i)
       /\ sr k = Raise e)
  /\ (forall ids : list string,
     Market.get_offer_ids mr fuel = Some (OK ids, n) ->
     exists k : nat,
       n = S k
       /\ (forall i : nat, (i < k)%nat -> market_more mr i)
       /\ market_last mr k
       /\ ids = map (fun product => Market.shopSku (Market.entry_offer product))
                    (market_accumulated mr (S k)))
  /\ (forall e : exn,
     Market.get_offer_ids mr fuel = Some (Raise e, n) ->
     exists k : nat,
       n = S k
       /\ (forall i : nat, (i < k)%nat -> market_more mr i)
       /\ mr k = Raise e).
Proof.
  assert (Hnone : forall (P : nat -> Prop) (i : nat), (i < 0)%nat -> P i)
    by (intros P i Hi; lia).
  split; [|split; [|split]].
  - intros ids H. unfold Seller.get_offer_ids in H.
    destruct (Seller.offer_ids_loop sr fuel "" [] 0%nat) as [[r c]|] eqn:E;
      [|discriminate].
    injection H as Hr <-.
    apply (seller_loop_stopped sr fuel 0%nat) in E; [|apply Hnone].
    destruct E as [k [-> [Hmore [[[pg [Hpg Htot]] ->]|[e [_ ->]]]]]];
      [|discriminate].
    simpl in Hr. injection Hr as <-.
    exists k. split; [reflexivity|]. split; [assumption|].
    split; [reflexivity|]. exists pg. split; [assumption|].
    now rewrite length_map.
  - intros e H. unfold Seller.get_offer_ids in H.
    destruct (Seller.offer_ids_loop sr fuel "" [] 0%nat) as [[r c]|] eqn:E;
      [|discriminate].
    injection H as Hr <-.
    apply (seller_loop_stopped sr fuel 0%nat) in E; [|apply Hnone].
    destruct E as [k [-> [Hmore [[_ ->]|[e' [He' ->]]]]]]; [discriminate|].
    simpl in Hr. injection Hr as <-.
    exists k. now repeat split.
  - intros ids H. unfold Market.get_offer_ids in H.
    destruct (Market.offer_ids_loop mr fuel (Some "") [] 0%nat)
      as [[r c]|] eqn:E; [|discriminate].
    injection H as Hr <-.
    apply (market_loop_stopped mr fuel 0%nat) in E; [|apply Hnone].
    destruct E as [k [-> [Hmore [[Hlast ->]|[e [_ ->]]]]]]; [|discriminate].
    simpl in Hr. injection Hr as <-.
    exists k. now repeat split.
  - intros e H. unfold Market.get_offer_ids in H.
    destruct (Market.offer_ids_loop mr fuel (Some "") [] 0%nat)
      as [[r c]|] eqn:E; [|discriminate].
    injection H as Hr <-.
    apply (market_loop_stopped mr fuel 0%nat) in E; [|apply Hnone].
    destruct E as [k [-> [Hmore [[_ ->]|[e' [He' ->]]]]]]; [discriminate|].
    simpl in Hr. injection Hr as <-.
    exists k. now repeat split.
Qed.

Lemma fetchers_results_sound_witness :
  exists k : nat,
    2%nat = S k
    /\ (forall i : nat, (i < k)%nat -> seller_more seller_two_pages i)
    /\ ["101"; "102"; "103"]
       = map Seller.product_offer_id (seller_accumulated seller_two_pages (S k))
    /\ exists pg : Seller.product_page,
         seller_two_pages k = OK pg
         /\ Seller.page_total pg
            = Z.of_nat (List.length ["101"; "102"; "103"]).
Proof.
  apply (proj1 (fetchers_results_sound seller_two_pages market_second_fails
                  5 2) ["101"; "102"; "103"]).
  reflexivity.
Defined.

(** ** Fetch, build, write: [upload_prices] and [main] *)

Lemma divide_concat {A : Type} (lst : list A) (n : Z)
    (batches : list (list A)) :
  0 < n -> divide lst n = OK batches -> List.concat batches = lst.
Proof.
  intros Hn H. rewrite divide_slices in H by assumption.
  injection H as <-. now rewrite slices_concat by (trivial; lia).
Qed.

(** X15. When [upload_prices] returns a batch, it is the price batch
    built over the ids just fetched: one record for each inventory row
    whose code is among them, in inventory order.  The batch was cut in
    parts of 1000 (Ozon) or 500 (Yandex Market) records that together are
    the batch, and the write endpoint accepted every part. *)
Theorem upload_prices_result
    (sr : nat -> res Seller.product_page)
    (mr : nat -> res Market.mapping_page)
    (s_update : list Seller.price_record -> res unit)
    (m_update : list Market.price_record -> res unit)
    (fuel : nat) (rows : list watch) :
  (forall prices : list Seller.price_record,
     Seller.upload_prices sr s_update fuel rows = Some (OK prices) ->
     exists (ids : list string) (calls : nat)
            (batches : list (list Seller.price_record)),
       Seller.get_offer_ids sr fuel = Some (OK ids, calls)
       /\ Forall2 seller_price_of (known_rows rows ids) prices
       /\ divide prices 1000 = OK batches
       /\ List.concat batches = prices
       /\ Forall (fun b => s_update b = OK tt) batches)
  /\ (forall prices : list Market.price_record,
     Market.upload_prices mr m_update fuel rows = Some (OK prices) ->
     exists (ids : list string) (calls : nat)
            (batches : list (list Market.price_record)),
       Market.get_offer_ids mr fuel = Some (OK ids, calls)
       /\ Forall2 market_price_of (known_rows rows ids) prices
       /\ divide prices 500 = OK batches
       /\ List.concat batches = prices
       /\ Forall (fun b => m_update b = OK tt) batches).
Proof.
  split; intros prices.
  - unfold Seller.upload_prices.
    destruct (Seller.get_offer_ids sr fuel) as [[[ids|e] calls]|];
      try discriminate.
    unfold bind, lift, ret.
    destruct (Seller.create_prices rows ids) as [[p|e] ids1] eqn:Ec;
      [|discriminate].
    destruct (divide p 1000) as [batches|e] eqn:Ed; [|discriminate].
    destruct (Seller.for_each s_update batches) as [[]|e] eqn:Eu;
      [|discriminate].
    simpl. intros H. injection H as <-.
    exists ids, calls, batches. split; [reflexivity|].
    split; [now apply seller_prices_loop_ok in Ec as [recs [-> HF]]|].
    split; [exact Ed|].
    split; [now apply (divide_concat p 1000)|now apply for_each_all_ok].
  - unfold Market.upload_prices.
    destruct (Market.get_offer_ids mr fuel) as [[[ids|e] calls]|];
      try discriminate.
    unfold bind, lift, ret.
    destruct (Market.create_prices rows ids) as [[p|e] ids1] eqn:Ec;
      [|discriminate].
    destruct (divide p 500) as [batches|e] eqn:Ed; [|discriminate].
    destruct (Seller.for_each m_update batches) as [[]|e] eqn:Eu;
      [|discriminate].
    simpl. intros H. injection H as <-.
    exists ids, calls, batches. split; [reflexivity|].
    split; [now apply market_prices_loop_ok in Ec as [recs [-> HF]]|].
    split; [exact Ed|].
    split; [now apply (divide_concat p 500)|now apply for_each_all_ok].
Qed.

Lemma upload_prices_result_witness :
  exists (ids : list string) (calls : nat)
         (batches : list (list Seller.price_record)),
    Seller.get_offer_ids one_offer_listing 1 = Some (OK ids, calls)
    /\ Forall2 seller_price_of (known_rows one_watch_feed ids)
         [Seller.mkPrice "UNKNOWN" "RUB" "101" "0" "5990"]
    /\ divide [Seller.mkPrice "UNKNOWN" "RUB" "101" "0" "5990"] 1000
       = OK batches
    /\ List.concat batches = [Seller.mkPrice "UNKNOWN" "RUB" "101" "0" "5990"]
    /\ Forall (fun b => (fun _ : list Seller.price_record => OK tt) b = OK tt)
              batches.
Proof.
  apply (proj1 (upload_prices_result one_offer_listing market_second_fails
                  (fun _ => OK tt) (fun _ => OK tt) 1 one_watch_feed)
           [Seller.mkPrice "UNKNOWN" "RUB" "101" "0" "5990"]).
  reflexivity.
Defined.

(** X14. When the [try] of [main] of the Ozon adapter completes, the ids
    were fetched and the feed downloaded, the stock batch is the one
    [create_stocks] builds over the fetched ids, every part of 100 of it
    and every part of 900 of the price batch was accepted by the write
    endpoints, and the price batch holds one record for each row whose
    code is still in the list of ids once [create_stocks] has removed
    the matched ones: none at all when the fetched ids have no
    duplicate. *)
Theorem main_completed_run
    (responses : nat -> res Seller.product_page)
    (download_stock : res (list watch))
    (update_stocks : list Seller.stock_record -> res unit)
    (update_price : list Seller.price_record -> res unit)
    (fuel : nat) (stocks : list Seller.stock_record)
    (prices : list Seller.price_record) :
  Seller.main responses download_stock update_stocks update_price fuel
  = Some (OK (stocks, prices)) ->
  exists (ids : list string) (calls : nat) (rows : list watch)
         (stock_batches : list (list Seller.stock_record))
         (price_batches : list (list Seller.price_record)),
    Seller.get_offer_ids responses fuel = Some (OK ids, calls)
    /\ download_stock = OK rows
    /\ Seller.create_stocks rows ids = (OK stocks, remaining_ids rows ids)
    /\ divide stocks 100 = OK stock_batches
    /\ Forall (fun b => update_stocks b = OK tt) stock_batches
    /\ Forall2 seller_price_of (known_rows rows (remaining_ids rows ids)) prices
    /\ divide prices 900 = OK price_batches
    /\ Forall (fun b => update_price b = OK tt) price_batches
    /\ (NoDup ids -> prices = []).
Proof.
  unfold Seller.main.
  destruct (Seller.get_offer_ids responses fuel) as [[[ids|e] calls]|];
    try discriminate.
  destruct download_stock as [rows|e]; [|discriminate].
  intros H. injection H as H.
  destruct (Seller.main_body update_stocks update_price rows ids)
    as [r ids2] eqn:Eb.
  simpl in H. subst r.
  assert (Hempty : NoDup ids -> prices = []).
  { intros Hnd. eapply main_body_prices_empty; eassumption. }
  unfold Seller.main_body, bind, lift, ret in Eb.
  destruct (Seller.create_stocks rows ids) as [[s|e] ids1] eqn:Ec;
    [|discriminate].
  destruct (divide s 100) as [sb|e] eqn:Ed; [|discriminate].
  destruct (Seller.for_each update_stocks sb) as [[]|e] eqn:Eu;
    [|discriminate].
  destruct (Seller.create_prices rows ids1) as [[p|e] ids3] eqn:Ep;
    [|discriminate].
  destruct (divide p 900) as [pb|e] eqn:Edp; [|discriminate].
  destruct (Seller.for_each update_price pb) as [[]|e] eqn:Eup;
    [|discriminate].
  injection Eb as <- <- _.
  pose proof (seller_create_stocks_ok rows ids ids1 s Ec) as [Hids _].
  subst ids1.
  exists ids, calls, rows, sb, pb.
  split; [reflexivity|]. split; [reflexivity|]. split; [exact Ec|].
  split; [exact Ed|]. split; [now apply for_each_all_ok|].
  split; [now apply seller_prices_loop_ok in Ep as [recs [-> HF]]|].
  split; [exact Edp|]. split; [now apply for_each_all_ok|exact Hempty].
Qed.

Lemma main_completed_run_witness :
  exists (ids : list string) (calls : nat) (rows : list watch)
         (stock_batches : list (list Seller.stock_record))
         (price_batches : list (list Seller.price_record)),
    Seller.get_offer_ids one_offer_listing 1 = Some (OK ids, calls)
    /\ OK one_watch_feed = OK rows
    /\ Seller.create_stocks rows ids
       = (OK [Seller.mkStock "101" 5], remaining_ids rows ids)
    /\ divide [Seller.mkStock "101" 5] 100 = OK stock_batches
    /\ Forall (fun b => (fun _ : list Seller.stock_record => OK tt) b = OK tt)
              stock_batches
    /\ Forall2 seller_price_of (known_rows rows (remaining_ids rows ids)) []
    /\ divide [] 900 = OK price_batches
    /\ Forall (fun b => (fun _ : list Seller.price_record => OK tt) b = OK tt)
              price_batches
    /\ (NoDup ids -> @nil Seller.price_record = []).
Proof.
  apply (main_completed_run one_offer_listing (OK one_watch_feed)
           (fun _ => OK tt) (fun _ => OK tt) 1
           [Seller.mkStock "101" 5] []).
  reflexivity.
Defined.

(** ** Cells that hold integers *)

Lemma uint_string_digits (d : Decimal.uint) :
  all_digits (NilEmpty.string_of_uint d) = true.
Proof.
  induction d; simpl; trivial.
Qed.

Ltac eval_digit :=
  match goal with
  | |- context [digit_val ?c] =>
      let v := eval vm_compute in (digit_val c) in
      change (digit_val c) with v
  end.

Lemma decimal_value_uint_acc (d : Decimal.uint) :
  forall acc : positive,
  decimal_value (Z.pos acc) (NilEmpty.string_of_uint d)
  = Z.pos (Pos.of_uint_acc d acc).
Proof.
  induction d; intros acc;
    cbn [NilEmpty.string_of_uint decimal_value Pos.of_uint_acc];
    try reflexivity;
    rewrite <- IHd; f_equal; eval_digit; lia.
Qed.

Lemma decimal_value_uint (d : Decimal.uint) :
  decimal_value 0 (NilEmpty.string_of_uint d) = Z.of_N (Pos.of_uint d).
Proof.
  induction d;
    cbn [NilEmpty.string_of_uint decimal_value Pos.of_uint];
    try reflexivity;
    try (rewrite <- IHd; f_equal; eval_digit; lia);
    cbn [Z.of_N]; rewrite <- decimal_value_uint_acc; f_equal; eval_digit; lia.
Qed.

Lemma int_unsigned_digits (s : string) :
  all_digits s = true -> s <> EmptyString ->
  int_unsigned s = Some (decimal_value 0 s).
Proof.
  destruct s as [|c s]; [congruence|]. intros H _.
  simpl in H. apply andb_prop in H as [Hc Hs].
  simpl. rewrite Hc. now apply int_digits_all_digits.
Qed.

Lemma pos_string (p : positive) :
  NilZero.string_of_uint (Pos.to_uint p) = NilEmpty.string_of_uint (Pos.to_uint p)
  /\ NilEmpty.string_of_uint (Pos.to_uint p) <> EmptyString
  /\ decimal_value 0 (NilEmpty.string_of_uint (Pos.to_uint p)) = Z.pos p.
Proof.
  pose proof (DecimalZ.of_to (Z.pos p)) as H. simpl in H. unfold Z.of_uint in H.
  rewrite decimal_value_uint.
  destruct (Pos.to_uint p); try discriminate H;
    (split; [reflexivity|]); (split; [discriminate|assumption]).
Qed.

(** [int(str(z))] is [z]. *)
Lemma int_of_str_of_int (z : Z) : int_of_str (py_str (PyInt z)) = Some z.
Proof.
  destruct z as [|p|p]; [reflexivity| |]; simpl py_str;
    destruct (pos_string p) as [E [Hne Hv]]; rewrite E.
  - rewrite int_of_str_digits; [now rewrite Hv|apply uint_string_digits|assumption].
  - change (int_of_str (String "-" (NilEmpty.string_of_uint (Pos.to_uint p))))
      with (option_map Z.opp
              (int_unsigned (NilEmpty.string_of_uint (Pos.to_uint p)))).
    rewrite int_unsigned_digits; [|apply uint_string_digits|assumption].
    simpl. now rewrite Hv.
Qed.

Lemma stock_count_int (z : Z) :
  stock_count (PyInt z) = OK (if z =? 1 then 0 else z).
Proof.
  unfold stock_count.
  pose proof (int_of_str_of_int z) as H.
  destruct (String.eqb_spec (py_str (PyInt z)) ">10") as [E|_].
  - rewrite E in H. discriminate H.
  - destruct (String.eqb_spec (py_str (PyInt z)) "1") as [E|Hne].
    + rewrite E in H. injection H as <-. reflexivity.
    + destruct (Z.eqb_spec z 1) as [->|_]; [now contradiction Hne|reflexivity].
Qed.

Lemma stock_count_int_string (z : Z) :
  stock_count (PyStr (py_str (PyInt z))) = OK (if z =? 1 then 0 else z).
Proof.
  pose proof (int_of_str_of_int z) as H.
  remember (py_str (PyInt z)) as s eqn:Es.
  unfold stock_count. cbn [py_str].
  destruct (String.eqb_spec s ">10") as [E|_].
  - rewrite E in H. discriminate H.
  - destruct (String.eqb_spec s "1") as [E|Hne].
    + rewrite E in H. injection H as <-. reflexivity.
    + unfold py_int. rewrite H.
      destruct (Z.eqb_spec z 1) as [->|_]; [|reflexivity].
      now contradiction Hne.
Qed.

(** X17. A quantity cell that holds the integer [z] gives the count [z],
    except that the integer 1, like the string "1", gives 0; the string
    of the decimal digits of [z] gives the same count as the integer.  A
    code cell that holds an integer is compared through its decimal
    string, which [int] reads back as the same integer, so rows with
    different integer codes never answer to the same offer id. *)
Theorem integer_cells (z : Z) :
  stock_count (PyInt z) = OK (if z =? 1 then 0 else z)
  /\ stock_count (PyStr (py_str (PyInt z))) = stock_count (PyInt z)
  /\ py_int (PyStr (py_str (PyInt z))) = OK z
  /\ (forall z' : Z, py_str (PyInt z) = py_str (PyInt z') -> z = z').
Proof.
  split; [apply stock_count_int|]. split; [|split].
  - rewrite stock_count_int. apply stock_count_int_string.
  - unfold py_int. now rewrite int_of_str_of_int.
  - intros z' H. pose proof (int_of_str_of_int z) as H1.
    rewrite H, int_of_str_of_int in H1. now injection H1.
Qed.

Lemma integer_cells_witness :
  py_str (PyInt 101) = py_str (PyInt 101) /\ 101 = 101.
Proof.
  split; [reflexivity|].
  apply (proj2 (proj2 (proj2 (integer_cells 101))) 101). reflexivity.
Defined.
